(** * ocs-ci: the Multi Cloud Gateway wrapper [ocs_ci/ocs/resources/mcg.py]

    A shallow embedding of the [MCG] class.  Python values that travel
    through the class (decoded JSON documents, strings, integers) are the
    inductive type [value]; exceptions are the inductive type [exn]; a
    method is a function in a state-and-exception monad whose state holds
    the instance ([self]), the outside world (cluster, gateway, CLI) and
    the list of calls made to that world. *)

From Stdlib Require Import String Ascii List ZArith Bool Arith Lia.
Import ListNotations.

Set Warnings "-register-all".

Local Open Scope string_scope.
Local Open Scope list_scope.

(** ** Python values and exceptions *)

(** The values [json.loads] can produce, which is also what the [OCP]
    wrapper and [resp.json()] return.  A dictionary is an association list
    in insertion order, as a Python [dict] iterates.  Strings are sequences
    of code points below 256. *)
Inductive value : Type :=
| VNone
| VStr (s : string)
| VInt (z : Z)
| VList (l : list value)
| VDict (d : list (string * value)).

(** The exception classes that the class can meet.  [CommandFailed] carries
    what [repr(e)] evaluates to, [ClientError] the error code of the
    response, [UnboundLocalError] the name of the variable. *)
Inductive exn : Type :=
| AttributeError
| TypeError
| IndexError
| KeyError (key : value)
| UnboundLocalError (var : string)
| ClientError (code : string)
| CommandFailed (repr : string)
| TimeoutExpiredError
| OtherError (name : string).

Inductive result (A : Type) : Type :=
| Ok (a : A)
| Raise (e : exn).
Arguments Ok {A} a.
Arguments Raise {A} e.

(** ** Strings *)

Definition nl : string := String "010"%char "".

(** [str.isspace] on the code points below 256. *)
Definition is_space (c : ascii) : bool :=
  let n := nat_of_ascii c in
  (((9 <=? n) && (n <=? 13)) || ((28 <=? n) && (n <=? 32))
   || (n =? 133) || (n =? 160))%nat.

(** [s.split(sep)] for a separator of one character: every occurrence
    splits, empty pieces are kept, and the empty string gives [['']]. *)
Fixpoint split_on (sep : ascii) (s : string) : list string :=
  match s with
  | EmptyString => [""]
  | String c s' =>
      if Ascii.eqb c sep then "" :: split_on sep s'
      else match split_on sep s' with
           | [] => [String c ""]
           | w :: ws => String c w :: ws
           end
  end.

(** [s.split()]: runs of whitespace separate, no empty piece is produced.
    [tok] is the piece being read. *)
Fixpoint split_ws (tok s : string) : list string :=
  match s with
  | EmptyString => match tok with EmptyString => [] | _ => [tok] end
  | String c s' =>
      if is_space c
      then match tok with
           | EmptyString => split_ws "" s'
           | _ => tok :: split_ws "" s'
           end
      else split_ws (tok ++ String c "") s'
  end.

Definition str_split (s : string) : list string := split_ws "" s.

(** [sub in s] on strings. *)
Fixpoint str_contains (sub s : string) : bool :=
  String.prefix sub s ||
  match s with
  | EmptyString => false
  | String _ s' => str_contains sub s'
  end.

(** [l[1:-1]] *)
Definition slice_1_m1 {A} (l : list A) : list A := removelast (tl l).

(** [l[i]] for a non-negative literal [i]. *)
Definition list_item {A} (l : list A) (i : nat) : result A :=
  match nth_error l i with
  | Some a => Ok a
  | None => Raise IndexError
  end.

(** A list comprehension whose element expression can raise: the first
    exception ends it. *)
Fixpoint comprehension {A B} (f : A -> result B) (l : list A) : result (list B) :=
  match l with
  | [] => Ok []
  | a :: l' =>
      match f a with
      | Raise e => Raise e
      | Ok b => match comprehension f l' with
                | Raise e => Raise e
                | Ok bs => Ok (b :: bs)
                end
      end
  end.

(** The pure part of [cli_list_all_bucket_names]: from the text printed by
    [noobaa obc list] to the names. *)
Definition parse_obc_list (out : string) : result (list string) :=
  let obc_lst := slice_1_m1 (split_on "010"%char out) in
  comprehension (fun row => list_item (str_split row) 1) obc_lst.

Definition sample_output : string :=
  "NAME  BUCKET" ++ nl ++ "--- ---" ++ nl ++ "foo  mybucket-1" ++ nl
  ++ "bar  mybucket-2" ++ nl.

(** ** Operations on values *)

Fixpoint assoc (k : string) (d : list (string * value)) : option value :=
  match d with
  | [] => None
  | (k', v) :: d' => if String.eqb k k' then Some v else assoc k d'
  end.

(** [d[k]] on the configuration dictionary. *)
Definition dict_subscript (d : list (string * value)) (k : string) : result value :=
  match assoc k d with
  | Some v => Ok v
  | None => Raise (KeyError (VStr k))
  end.

(** [v.get(k)]: only a dictionary has the method; an absent key gives
    [None]. *)
Definition py_get (k : string) (v : value) : result value :=
  match v with
  | VDict d => Ok (match assoc k d with Some x => x | None => VNone end)
  | _ => Raise AttributeError
  end.

(** [v[i]] for a literal index [i >= 0]. *)
Definition py_item (i : nat) (v : value) : result value :=
  match v with
  | VList l => list_item l i
  | VStr s => match String.get i s with
              | Some c => Ok (VStr (String c ""))
              | None => Raise IndexError
              end
  | VDict _ => Raise (KeyError (VInt (Z.of_nat i)))
  | VNone | VInt _ => Raise TypeError
  end.

(** [v.split(sep)] *)
Definition py_split (sep : ascii) (v : value) : result (list string) :=
  match v with
  | VStr s => Ok (split_on sep s)
  | _ => Raise AttributeError
  end.

(** [a + b] where [b] is a string literal. *)
Definition py_add_str (a : value) (b : string) : result value :=
  match a with
  | VStr s => Ok (VStr (s ++ b))
  | _ => Raise TypeError
  end.

(** [a - b]; the integers are unbounded. *)
Definition py_sub (a b : value) : result Z :=
  match a, b with
  | VInt x, VInt y => Ok (x - y)%Z
  | _, _ => Raise TypeError
  end.

(** What iterating over a value visits. *)
Definition py_iter (v : value) : result (list value) :=
  match v with
  | VList l => Ok l
  | VDict d => Ok (map (fun kv => VStr (fst kv)) d)
  | VStr s => Ok (map (fun c => VStr (String c "")) (list_ascii_of_string s))
  | VNone | VInt _ => Raise TypeError
  end.

Definition bindR {A B} (r : result A) (f : A -> result B) : result B :=
  match r with
  | Ok a => f a
  | Raise e => Raise e
  end.

Declare Scope result_scope.
Delimit Scope result_scope with res.
Notation "r >>= f" := (bindR r f) (at level 50, left associativity) : result_scope.

(** ** The instance *)

(** The [OCP] wrapper objects built by the class: a kind and a namespace. *)
Record OCP : Type := { ocp_kind : string; ocp_namespace : value }.

(** What [boto3.resource('s3', verify=False, ...)] is given. *)
Record S3Resource : Type :=
  { endpoint_url : value;
    aws_access_key_id : value;
    aws_secret_access_key : value }.

(** The attributes of an [MCG] instance.  The ten class attributes are
    [None] until [__init__] assigns them; [_ocp_resource] does not exist
    before its assignment. *)
Record MCG : Type :=
  { s3_resource : option S3Resource;
    s3_endpoint : value;
    ocp_resource : value;
    mgmt_endpoint : value;
    region : value;
    access_key_id : value;
    access_key : value;
    namespace : value;
    noobaa_user : value;
    noobaa_password : value;
    _ocp_resource : option OCP }.

Definition class_attributes : MCG :=
  {| s3_resource := None; s3_endpoint := VNone; ocp_resource := VNone;
     mgmt_endpoint := VNone; region := VNone; access_key_id := VNone;
     access_key := VNone; namespace := VNone; noobaa_user := VNone;
     noobaa_password := VNone; _ocp_resource := None |}.

Definition set_s3_resource (x : S3Resource) (o : MCG) : MCG :=
  {| s3_resource := Some x; s3_endpoint := s3_endpoint o;
     ocp_resource := ocp_resource o; mgmt_endpoint := mgmt_endpoint o;
     region := region o; access_key_id := access_key_id o;
     access_key := access_key o; namespace := namespace o;
     noobaa_user := noobaa_user o; noobaa_password := noobaa_password o;
     _ocp_resource := _ocp_resource o |}.
Definition set_s3_endpoint (x : value) (o : MCG) : MCG :=
  {| s3_resource := s3_resource o; s3_endpoint := x;
     ocp_resource := ocp_resource o; mgmt_endpoint := mgmt_endpoint o;
     region := region o; access_key_id := access_key_id o;
     access_key := access_key o; namespace := namespace o;
     noobaa_user := noobaa_user o; noobaa_password := noobaa_password o;
     _ocp_resource := _ocp_resource o |}.
Definition set_mgmt_endpoint (x : value) (o : MCG) : MCG :=
  {| s3_resource := s3_resource o; s3_endpoint := s3_endpoint o;
     ocp_resource := ocp_resource o; mgmt_endpoint := x;
     region := region o; access_key_id := access_key_id o;
     access_key := access_key o; namespace := namespace o;
     noobaa_user := noobaa_user o; noobaa_password := noobaa_password o;
     _ocp_resource := _ocp_resource o |}.
Definition set_region (x : value) (o : MCG) : MCG :=
  {| s3_resource := s3_resource o; s3_endpoint := s3_endpoint o;
     ocp_resource := ocp_resource o; mgmt_endpoint := mgmt_endpoint o;
     region := x; access_key_id := access_key_id o;
     access_key := access_key o; namespace := namespace o;
     noobaa_user := noobaa_user o; noobaa_password := noobaa_password o;
     _ocp_resource := _ocp_resource o |}.
Definition set_access_key_id (x : value) (o : MCG) : MCG :=
  {| s3_resource := s3_resource o; s3_endpoint := s3_endpoint o;
     ocp_resource := ocp_resource o; mgmt_endpoint := mgmt_endpoint o;
     region := region o; access_key_id := x;
     access_key := access_key o; namespace := namespace o;
     noobaa_user := noobaa_user o; noobaa_password := noobaa_password o;
     _ocp_resource := _ocp_resource o |}.
Definition set_access_key (x : value) (o : MCG) : MCG :=
  {| s3_resource := s3_resource o; s3_endpoint := s3_endpoint o;
     ocp_resource := ocp_resource o; mgmt_endpoint := mgmt_endpoint o;
     region := region o; access_key_id := access_key_id o;
     access_key := x; namespace := namespace o;
     noobaa_user := noobaa_user o; noobaa_password := noobaa_password o;
     _ocp_resource := _ocp_resource o |}.
Definition set_namespace (x : value) (o : MCG) : MCG :=
  {| s3_resource := s3_resource o; s3_endpoint := s3_endpoint o;
     ocp_resource := ocp_resource o; mgmt_endpoint := mgmt_endpoint o;
     region := region o; access_key_id := access_key_id o;
     access_key := access_key o; namespace := x;
     noobaa_user := noobaa_user o; noobaa_password := noobaa_password o;
     _ocp_resource := _ocp_resource o |}.
Definition set_noobaa_user (x : value) (o : MCG) : MCG :=
  {| s3_resource := s3_resource o; s3_endpoint := s3_endpoint o;
     ocp_resource := ocp_resource o; mgmt_endpoint := mgmt_endpoint o;
     region := region o; access_key_id := access_key_id o;
     access_key := access_key o; namespace := namespace o;
     noobaa_user := x; noobaa_password := noobaa_password o;
     _ocp_resource := _ocp_resource o |}.
Definition set_noobaa_password (x : value) (o : MCG) : MCG :=
  {| s3_resource := s3_resource o; s3_endpoint := s3_endpoint o;
     ocp_resource := ocp_resource o; mgmt_endpoint := mgmt_endpoint o;
     region := region o; access_key_id := access_key_id o;
     access_key := access_key o; namespace := namespace o;
     noobaa_user := noobaa_user o; noobaa_password := x;
     _ocp_resource := _ocp_resource o |}.
Definition set__ocp_resource (x : OCP) (o : MCG) : MCG :=
  {| s3_resource := s3_resource o; s3_endpoint := s3_endpoint o;
     ocp_resource := ocp_resource o; mgmt_endpoint := mgmt_endpoint o;
     region := region o; access_key_id := access_key_id o;
     access_key := access_key o; namespace := namespace o;
     noobaa_user := noobaa_user o; noobaa_password := noobaa_password o;
     _ocp_resource := Some x |}.

(** ** The outside world *)

(** The calls the class makes to its collaborators, as they are logged. *)
Inductive call : Type :=
| CallOcpGet (o : OCP) (resource_name : option value)
| CallMcgCmd (cmd : string)
| CallBucketsAll (r : S3Resource)
| CallHeadBucket (r : S3Resource) (bucket : string)
| CallPost (url : value) (payload : value).

(** The collaborators, over a world [W] that their calls read and change:
    the framework configuration, [OCP.get], [run_mcg_cmd], the boto3
    resource ([boto3.resource], [buckets.all()] giving the names of the
    buckets, [meta.client.head_bucket]), [requests.post(url, data=
    json.dumps(payload), verify=False)] followed by [resp.json()],
    [base64.b64decode(s).decode('utf-8')], and the number of samples that
    [TimeoutSampler(timeout, sleep, func)] yields before it raises
    [TimeoutExpiredError], which the wall clock decides. *)
Record Env (W : Type) : Type :=
  { ENV_DATA : list (string * value);
    ocp_get : OCP -> option value -> W -> result value * W;
    run_mcg_cmd : string -> W -> result string * W;
    boto3_resource : value -> value -> value -> result S3Resource;
    buckets_all : S3Resource -> W -> result (list string) * W;
    head_bucket : S3Resource -> string -> W -> result unit * W;
    requests_post : value -> value -> W -> result value * W;
    b64decode_utf8 : string -> result string;
    sampler_polls : nat -> nat -> W -> nat }.
Arguments ENV_DATA {W} _.
Arguments ocp_get {W} _ _ _ _.
Arguments run_mcg_cmd {W} _ _ _.
Arguments boto3_resource {W} _ _ _ _.
Arguments buckets_all {W} _ _ _.
Arguments head_bucket {W} _ _ _ _.
Arguments requests_post {W} _ _ _ _.
Arguments b64decode_utf8 {W} _ _.
Arguments sampler_polls {W} _ _ _ _.

(** The state a method runs in. *)
Record state (W : Type) : Type :=
  { self : MCG; world : W; calls : list call }.
Arguments self {W} _.
Arguments world {W} _.
Arguments calls {W} _.
Arguments Build_state {W} _ _ _.

(** ** The monad of methods *)

Definition M (W A : Type) : Type := state W -> result A * state W.

Definition ret {W A} (a : A) : M W A := fun st => (Ok a, st).
Definition raise {W A} (e : exn) : M W A := fun st => (Raise e, st).
Definition bind {W A B} (m : M W A) (f : A -> M W B) : M W B :=
  fun st => match m st with
            | (Ok a, st') => f a st'
            | (Raise e, st') => (Raise e, st')
            end.
Definition lift {W A} (r : result A) : M W A := fun st => (r, st).
Definition get_self {W} : M W MCG := fun st => (Ok (self st), st).
Definition set_attr {W} (f : MCG -> MCG) : M W unit :=
  fun st => (Ok tt, Build_state (f (self st)) (world st) (calls st)).

(** A call to a collaborator: the world answers and the call is logged. *)
Definition extern {W A} (c : call) (f : W -> result A * W) : M W A :=
  fun st => let (r, w') := f (world st) in
            (r, Build_state (self st) w' (calls st ++ [c])).

(** [try: m except <class>: ...] where [handler e] is [Some h] for the
    exceptions of the class. *)
Definition try_except {W A} (m : M W A) (handler : exn -> option (M W A)) : M W A :=
  fun st => match m st with
            | (Ok a, st') => (Ok a, st')
            | (Raise e, st') =>
                match handler e with
                | Some h => h st'
                | None => (Raise e, st')
                end
            end.

Declare Scope monad_scope.
Delimit Scope monad_scope with monad.
Notation "x <- m ;; k" := (bind m (fun x => k))
  (at level 100, m at next level, right associativity) : monad_scope.
Notation "m ;;; k" := (bind m (fun _ => k))
  (at level 100, right associativity) : monad_scope.

(** ** The methods of [MCG] *)

Section Methods.
Context {W : Type} (env : Env W).
Local Open Scope monad_scope.

(** [o.get()] and [o.get(resource_name)] *)
Definition OCP_get (o : OCP) (resource_name : option value) : M W value :=
  extern (CallOcpGet o resource_name) (ocp_get env o resource_name).

(** [base64.b64decode(v).decode('utf-8')]: only a string (or bytes, which
    a JSON document does not hold) is accepted. *)
Definition b64decode (v : value) : result value :=
  match v with
  | VStr s => (b64decode_utf8 env s >>= fun t => Ok (VStr t))%res
  | _ => Raise TypeError
  end.

(** The four fields of the secret, in the order [__init__] reads them. *)
Definition secret_field (creds_secret_obj : value) (k : string) : result value :=
  (py_get "data" creds_secret_obj >>= py_get k >>= b64decode)%res.

Definition __init__ : M W unit :=
  ns <- lift (dict_subscript (ENV_DATA env) "cluster_namespace") ;;
  set_attr (set_namespace ns) ;;;
  o <- get_self ;;
  let ocp_obj := {| ocp_kind := "noobaa"; ocp_namespace := namespace o |} in
  results <- OCP_get ocp_obj None ;;
  s3 <- lift (py_get "items" results >>= py_item 0 >>= py_get "status"
              >>= py_get "services" >>= py_get "serviceS3"
              >>= py_get "externalDNS" >>= py_item 0)%res ;;
  set_attr (set_s3_endpoint s3) ;;;
  mgmt <- lift (py_get "items" results >>= py_item 0 >>= py_get "status"
                >>= py_get "services" >>= py_get "serviceMgmt"
                >>= py_get "externalDNS" >>= py_item 0)%res ;;
  set_attr (set_mgmt_endpoint mgmt) ;;;
  o <- get_self ;;
  reg <- lift (py_split "." (s3_endpoint o) >>= fun l => list_item l 1)%res ;;
  set_attr (set_region (VStr reg)) ;;;
  creds_secret_name <-
    lift (py_get "items" results >>= py_item 0 >>= py_get "status"
          >>= py_get "accounts" >>= py_get "admin" >>= py_get "secretRef"
          >>= py_get "name")%res ;;
  o <- get_self ;;
  let secret_ocp_obj := {| ocp_kind := "secret"; ocp_namespace := namespace o |} in
  creds_secret_obj <- OCP_get secret_ocp_obj (Some creds_secret_name) ;;
  k1 <- lift (secret_field creds_secret_obj "AWS_ACCESS_KEY_ID") ;;
  set_attr (set_access_key_id k1) ;;;
  k2 <- lift (secret_field creds_secret_obj "AWS_SECRET_ACCESS_KEY") ;;
  set_attr (set_access_key k2) ;;;
  u <- lift (secret_field creds_secret_obj "email") ;;
  set_attr (set_noobaa_user u) ;;;
  p <- lift (secret_field creds_secret_obj "password") ;;
  set_attr (set_noobaa_password p) ;;;
  set_attr (set__ocp_resource ocp_obj) ;;;
  o <- get_self ;;
  r <- lift (boto3_resource env (s3_endpoint o) (access_key_id o) (access_key o)) ;;
  set_attr (set_s3_resource r).

(** [MCG()]: [__init__] runs on a new instance; the caller gets the
    instance only when [__init__] returns. *)
Definition new_MCG (w : W) (log : list call) : result MCG * (W * list call) :=
  match __init__ (Build_state class_attributes w log) with
  | (Ok _, st) => (Ok (self st), (world st, calls st))
  | (Raise e, st) => (Raise e, (world st, calls st))
  end.

(** [self.s3_resource.<attr>]: the class attribute is [None] until
    [__init__] has finished. *)
Definition the_s3_resource : M W S3Resource :=
  o <- get_self ;;
  match s3_resource o with
  | Some r => ret r
  | None => raise AttributeError
  end.

Definition s3_list_all_bucket_names : M W (list string) :=
  r <- the_s3_resource ;;
  extern (CallBucketsAll r) (buckets_all env r).

Definition oc_list_all_bucket_names : M W (list value) :=
  o <- get_self ;;
  r <- OCP_get {| ocp_kind := "obc"; ocp_namespace := namespace o |} None ;;
  all_obcs_in_namespace <- lift (py_get "items" r) ;;
  rows <- lift (py_iter all_obcs_in_namespace) ;;
  lift (comprehension
          (fun bucket => py_get "spec" bucket >>= py_get "bucketName")%res
          rows).

Definition cli_list_all_bucket_names : M W (list string) :=
  out <- extern (CallMcgCmd "obc list") (run_mcg_cmd env "obc list") ;;
  lift (parse_obc_list out).

Definition s3_verify_bucket_exists (bucketname : string) : M W bool :=
  try_except
    (r <- the_s3_resource ;;
     extern (CallHeadBucket r bucketname) (head_bucket env r bucketname) ;;;
     ret true)
    (fun e => match e with
              | ClientError _ => Some (ret false)
              | _ => None
              end).

Definition oc_verify_bucket_exists (bucketname : string) : M W bool :=
  try_except
    (o <- get_self ;;
     OCP_get {| ocp_kind := "obc"; ocp_namespace := namespace o |}
             (Some (VStr bucketname)) ;;;
     ret true)
    (fun e => match e with
              | CommandFailed r =>
                  Some (if str_contains "NotFound" r then ret false else raise e)
              | _ => None
              end).

(** [bucketname in l] *)
Definition str_in (x : string) (l : list string) : bool :=
  existsb (String.eqb x) l.

Definition cli_verify_bucket_exists (bucketname : string) : M W bool :=
  l <- cli_list_all_bucket_names ;;
  ret (str_in bucketname l).

(** *** [check_data_reduction] *)

Definition auth_payload (o : MCG) : value :=
  VDict [("api", VStr "auth_api");
         ("method", VStr "create_auth");
         ("params", VDict [("role", VStr "admin");
                           ("system", VStr "noobaa");
                           ("email", noobaa_user o);
                           ("password", noobaa_password o)])].

Definition read_bucket_payload (bucketname : string) (nb_token : value) : value :=
  VDict [("api", VStr "bucket_api");
         ("method", VStr "read_bucket");
         ("params", VDict [("name", VStr bucketname)]);
         ("auth_token", nb_token)].

(** The closure [_check_reduction], with the variables it captures. *)
Definition _check_reduction (mgmt_endpoint : value) (bucketname : string)
           (nb_token : value) : M W (value * value) :=
  resp <- extern (CallPost mgmt_endpoint (read_bucket_payload bucketname nb_token))
                 (requests_post env mgmt_endpoint
                                (read_bucket_payload bucketname nb_token)) ;;
  bucket_data <- lift (py_get "reply" resp >>= py_get "data" >>= py_get "size")%res ;;
  resp <- extern (CallPost mgmt_endpoint (read_bucket_payload bucketname nb_token))
                 (requests_post env mgmt_endpoint
                                (read_bucket_payload bucketname nb_token)) ;;
  bucket_data_reduced <-
    lift (py_get "reply" resp >>= py_get "data" >>= py_get "size_reduced")%res ;;
  ret (bucket_data, bucket_data_reduced).

(** The local variables [total_size] and [total_reduced]: unbound until
    the [for] statement unpacks the first sample into them. *)
Definition locals : Type := option (value * value).

(** The [for] statement over the sampler, which has [polls] samples left
    to yield and then raises [TimeoutExpiredError].  Each sample is the
    value of one call of the check function, whose exceptions pass through
    the sampler.  An exception leaves the loop together with the local
    variables as they are then. *)
Fixpoint for_samples (check : M W (value * value)) (polls : nat)
         (bound : locals) (st : state W) : (result bool * locals) * state W :=
  match polls with
  | O => ((Raise TimeoutExpiredError, bound), st)
  | S polls' =>
      match check st with
      | (Raise e, st') => ((Raise e, bound), st')
      | (Ok (total_size, total_reduced), st') =>
          let bound' := Some (total_size, total_reduced) in
          match py_sub total_size total_reduced with
          | Raise e => ((Raise e, bound'), st')
          | Ok d =>
              if (d >? 80000000)%Z
              then ((Ok true, bound'), st')
              else for_samples check polls' bound' st'
          end
      end
  end.

(** The [try] statement around the loop. *)
Definition try_for_samples (check : M W (value * value)) (polls : nat) : M W bool :=
  fun st =>
    match for_samples check polls None st with
    | ((Raise TimeoutExpiredError, bound), st') =>
        match bound with
        | None => (Raise (UnboundLocalError "total_size"), st')
        | Some (total_size, total_reduced) =>
            match py_sub total_size total_reduced with
            | Raise e => (Raise e, st')
            | Ok _ => (Ok false, st')
            end
        end
    | ((r, _), st') => (r, st')
    end.

(** The first statements of [check_data_reduction]: the RPC address and
    the token of an administrator session. *)
Definition create_auth : M W (value * value) :=
  o <- get_self ;;
  mgmt_endpoint <- lift (py_add_str (mgmt_endpoint o) "/rpc") ;;
  resp <- extern (CallPost mgmt_endpoint (auth_payload o))
                 (requests_post env mgmt_endpoint (auth_payload o)) ;;
  nb_token <- lift (py_get "reply" resp >>= py_get "token")%res ;;
  ret (mgmt_endpoint, nb_token).

Definition check_data_reduction (bucketname : string) : M W bool :=
  session <- create_auth ;;
  fun st =>
    try_for_samples
      (_check_reduction (fst session) bucketname (snd session))
      (sampler_polls env 120 5 (world st)) st.

(** The samples a run of [polls] calls of the check function yields when
    each call returns a pair of integers: [yields check st l st'] says
    that from [st] the calls return the pairs [l] in order and leave the
    state [st']. *)
Inductive yields (check : M W (value * value)) :
  state W -> list (Z * Z) -> state W -> Prop :=
| yields_nil st : yields check st [] st
| yields_cons st a b st1 l st2 :
    check st = (Ok (VInt a, VInt b), st1) ->
    yields check st1 l st2 ->
    yields check st ((a, b) :: l) st2.

End Methods.

(** ** The sampler *)

Module TimeoutSampler.
Local Open Scope nat_scope.

(** What a run of the sampler ends with: the consumer took a value and
    left its loop, or the sampler signalled the timeout. *)
Inductive verdict (A : Type) : Type :=
| Satisfied (a : A)
| TimedOut.
Arguments Satisfied {A} a.
Arguments TimedOut {A}.

(** The contract leaves open whether the first call is immediate or
    comes after the first interval. *)
Inductive first_call : Type := Immediate | AfterInterval.

Definition start (I : nat) (f : first_call) : nat :=
  match f with
  | Immediate => 0
  | AfterInterval => I
  end.

(** Modelled from the spec: the Polling Verifier
    ([ocs_ci.utility.utils.TimeoutSampler], imported by [mcg.py], its
    source absent).  In state Running at [elapsed] seconds it signals
    the timeout when the elapsed time exceeds [T]; otherwise it invokes
    the check function, hands the value to the consumer, and if the
    consumer goes on the next invocation comes [I] seconds later (the
    cadence).  The check function has no argument and reads the world,
    so its value depends on the time of the call.  The result is the
    verdict and the number of invocations of the check function;
    [fuel] bounds the number of transitions. *)
Fixpoint poll {A} (T I : nat) (check : nat -> A) (satisfying : A -> bool)
         (fuel elapsed : nat) : option (verdict A * nat) :=
  match fuel with
  | O => None
  | S fuel' =>
      if T <? elapsed then Some (TimedOut, 0)
      else
        let v := check elapsed in
        if satisfying v then Some (Satisfied v, 1)
        else match poll T I check satisfying fuel' (elapsed + I) with
             | Some (r, n) => Some (r, S n)
             | None => None
             end
  end.

Definition ceil_div (T I : nat) : nat :=
  if T mod I =? 0 then T / I else S (T / I).

End TimeoutSampler.

(** ** A scripted world *)

(** A world that answers from a script: one answer per collaborator, and a
    queue of answers for the RPC endpoint, taken in order. *)
Record script : Type :=
  { noobaa_answer : result value;
    secret_answer : result value;
    obc_answer : result value;
    cli_answer : result string;
    s3_names : result (list string);
    head_answer : result unit;
    rpc_answers : list (result value);
    polls_granted : nat }.

Definition pop_rpc (w : script) : result value * script :=
  match rpc_answers w with
  | [] => (Raise (OtherError "ConnectionError"), w)
  | r :: rs =>
      (r, {| noobaa_answer := noobaa_answer w; secret_answer := secret_answer w;
             obc_answer := obc_answer w; cli_answer := cli_answer w;
             s3_names := s3_names w; head_answer := head_answer w;
             rpc_answers := rs; polls_granted := polls_granted w |})
  end.

(** The encodings the scripted world knows. *)
Definition b64_table : list (string * string) :=
  [("YWRtaW5Abm9vYmFhLmlv", "admin@noobaa.io");
   ("QUtJQTEyMw==", "AKIA123");
   ("czNjcjN0", "s3cr3t");
   ("cGFzcw==", "pass")].

Fixpoint b64_lookup (s : string) (t : list (string * string)) : result string :=
  match t with
  | [] => Raise (OtherError "binascii.Error")
  | (k, v) :: t' => if String.eqb s k then Ok v else b64_lookup s t'
  end.

Definition script_env : Env script :=
  {| ENV_DATA := [("cluster_namespace", VStr "openshift-storage")];
     ocp_get := fun o _ w =>
       if String.eqb (ocp_kind o) "noobaa" then (noobaa_answer w, w)
       else if String.eqb (ocp_kind o) "secret" then (secret_answer w, w)
       else (obc_answer w, w);
     run_mcg_cmd := fun _ w => (cli_answer w, w);
     boto3_resource := fun e k s =>
       Ok {| endpoint_url := e; aws_access_key_id := k; aws_secret_access_key := s |};
     buckets_all := fun _ w => (s3_names w, w);
     head_bucket := fun _ _ w => (head_answer w, w);
     requests_post := fun _ _ w => pop_rpc w;
     b64decode_utf8 := fun s => b64_lookup s b64_table;
     sampler_polls := fun _ _ w => polls_granted w |}.

Definition noobaa_cr : value :=
  VDict [("items",
    VList [VDict [("status",
      VDict [("services",
               VDict [("serviceS3",
                        VDict [("externalDNS",
                                 VList [VStr "https://s3.us-east-2.example.com"])]);
                      ("serviceMgmt",
                        VDict [("externalDNS",
                                 VList [VStr "https://mgmt.us-east-2.example.com"])])]);
             ("accounts",
               VDict [("admin",
                        VDict [("secretRef",
                                 VDict [("name", VStr "noobaa-admin")])])])])]])].

Definition admin_secret : value :=
  VDict [("data",
    VDict [("AWS_ACCESS_KEY_ID", VStr "QUtJQTEyMw==");
           ("AWS_SECRET_ACCESS_KEY", VStr "czNjcjN0");
           ("email", VStr "YWRtaW5Abm9vYmFhLmlv");
           ("password", VStr "cGFzcw==")])].

(** The same secret without its [password] field. *)
Definition secret_without_password : value :=
  VDict [("data",
    VDict [("AWS_ACCESS_KEY_ID", VStr "QUtJQTEyMw==");
           ("AWS_SECRET_ACCESS_KEY", VStr "czNjcjN0");
           ("email", VStr "YWRtaW5Abm9vYmFhLmlv")])].

Definition read_bucket_reply (size size_reduced : Z) : value :=
  VDict [("reply",
    VDict [("data", VDict [("size", VInt size);
                           ("size_reduced", VInt size_reduced)])])].

Definition auth_reply : value :=
  VDict [("reply", VDict [("token", VStr "tok")])].

Definition quiet_script : script :=
  {| noobaa_answer := Ok noobaa_cr;
     secret_answer := Ok admin_secret;
     obc_answer := Ok (VDict [("items", VList [])]);
     cli_answer := Ok sample_output;
     s3_names := Ok [];
     head_answer := Ok tt;
     rpc_answers := [];
     polls_granted := 0 |}.

Definition with_rpc (answers : list (result value)) (polls : nat) (w : script) : script :=
  {| noobaa_answer := noobaa_answer w; secret_answer := secret_answer w;
     obc_answer := obc_answer w; cli_answer := cli_answer w;
     s3_names := s3_names w; head_answer := head_answer w;
     rpc_answers := answers; polls_granted := polls |}.

Definition with_secret (s : result value) (w : script) : script :=
  {| noobaa_answer := noobaa_answer w; secret_answer := s;
     obc_answer := obc_answer w; cli_answer := cli_answer w;
     s3_names := s3_names w; head_answer := head_answer w;
     rpc_answers := rpc_answers w; polls_granted := polls_granted w |}.

Definition with_obc (s : result value) (w : script) : script :=
  {| noobaa_answer := noobaa_answer w; secret_answer := secret_answer w;
     obc_answer := s; cli_answer := cli_answer w;
     s3_names := s3_names w; head_answer := head_answer w;
     rpc_answers := rpc_answers w; polls_granted := polls_granted w |}.

Definition with_head (s : result unit) (w : script) : script :=
  {| noobaa_answer := noobaa_answer w; secret_answer := secret_answer w;
     obc_answer := obc_answer w; cli_answer := cli_answer w;
     s3_names := s3_names w; head_answer := s;
     rpc_answers := rpc_answers w; polls_granted := polls_granted w |}.

(** The instance [MCG()] gives in the quiet scripted world, and the state
    a method then starts in. *)
Definition built : MCG :=
  match fst (new_MCG script_env quiet_script []) with
  | Ok o => o
  | Raise _ => class_attributes
  end.

Definition started (w : script) : state script :=
  {| self := built; world := w; calls := [] |}.

(** The error of the cluster for a claim that is absent. *)
Definition ghost_not_found : exn :=
  CommandFailed
    "CommandFailed('Error from server (NotFound): objectbucketclaims.objectbucket.io ghost not found')".

(** ** What a method may do to the state *)

(** The calls that resolve the endpoints or the credentials. *)
Definition resolves (c : call) : bool :=
  match c with
  | CallOcpGet o _ =>
      String.eqb (ocp_kind o) "noobaa" || String.eqb (ocp_kind o) "secret"
  | _ => false
  end.

(** The calls made from [st] to [st'] resolve nothing. *)
Definition resolves_nothing {W} (st st' : state W) : Prop :=
  exists new, calls st' = calls st ++ new /\
              forallb (fun c => negb (resolves c)) new = true.

(** [st'] comes from [st] by calls that leave the instance as it is and
    resolve nothing. *)
Definition read_only {W} (st st' : state W) : Prop :=
  self st' = self st /\ resolves_nothing st st'.

Definition keeps {W A} (m : M W A) : Prop :=
  forall st, read_only st (snd (m st)).

(** The sample meets the threshold of [check_data_reduction]. *)
Definition reduced_enough (s : Z * Z) : bool :=
  (fst s - snd s >? 80000000)%Z.

(** [results.get('items')[0].get('status').get('accounts').get('admin')
    .get('secretRef').get('name')], the name [__init__] fetches the secret
    by. *)
Definition secret_ref_name (results : value) : result value :=
  (py_get "items" results >>= py_item 0 >>= py_get "status"
   >>= py_get "accounts" >>= py_get "admin" >>= py_get "secretRef"
   >>= py_get "name")%res.

(** No sample of the run meets it. *)
Definition none_enough (l : list (Z * Z)) : bool :=
  forallb (fun s => negb (reduced_enough s)) l.

Definition required_fields : list string :=
  ["AWS_ACCESS_KEY_ID"; "AWS_SECRET_ACCESS_KEY"; "email"; "password"].

(** The secret holds a value for the field [k] of its [data]. *)
Definition secret_has (secret : value) (k : string) : bool :=
  match (py_get "data" secret >>= py_get k)%res with
  | Ok VNone => false
  | Ok _ => true
  | Raise _ => false
  end.

(** ** Vocabulary of the further properties *)

(** The number of occurrences of [c] in [s]. *)
Fixpoint count_char (c : ascii) (s : string) : nat :=
  match s with
  | EmptyString => 0
  | String c' s' => (if Ascii.eqb c' c then 1 else 0) + count_char c s'
  end.

(** Some character of [s] is whitespace. *)
Fixpoint has_space (s : string) : bool :=
  match s with
  | EmptyString => false
  | String c s' => is_space c || has_space s'
  end.

(** A name as [str.split()] produces them: not empty, no whitespace. *)
Definition clean_name (s : string) : Prop :=
  s <> "" /\ has_space s = false.

(** The rows [cli_list_all_bucket_names] reads names from. *)
Definition obc_rows (out : string) : list string :=
  slice_1_m1 (split_on "010"%char out).

Definition with_cli (s : result string) (w : script) : script :=
  {| noobaa_answer := noobaa_answer w; secret_answer := secret_answer w;
     obc_answer := obc_answer w; cli_answer := s;
     s3_names := s3_names w; head_answer := head_answer w;
     rpc_answers := rpc_answers w; polls_granted := polls_granted w |}.

Definition with_noobaa (s : result value) (w : script) : script :=
  {| noobaa_answer := s; secret_answer := secret_answer w;
     obc_answer := obc_answer w; cli_answer := cli_answer w;
     s3_names := s3_names w; head_answer := head_answer w;
     rpc_answers := rpc_answers w; polls_granted := polls_granted w |}.

(** [results.get('items')[0].get('status').get('services').get(service)
    .get('externalDNS')[0]], the address [__init__] reads for the service
    [serviceS3] and for the service [serviceMgmt]. *)
Definition external_dns (service : string) (results : value) : result value :=
  (py_get "items" results >>= py_item 0 >>= py_get "status"
   >>= py_get "services" >>= py_get service
   >>= py_get "externalDNS" >>= py_item 0)%res.

(** The two fetches of [__init__]. *)
Definition fetch_noobaa (ns : value) : call :=
  CallOcpGet {| ocp_kind := "noobaa"; ocp_namespace := ns |} None.
Definition fetch_secret (ns name : value) : call :=
  CallOcpGet {| ocp_kind := "secret"; ocp_namespace := ns |} (Some name).

(** The attribute value [v] is the decoding of the field [k] of the
    secret. *)
Definition decodes_to {W} (env : Env W) (secret : value) (k : string)
           (v : value) : Prop :=
  exists enc dec,
    (py_get "data" secret >>= py_get k)%res = Ok (VStr enc)
    /\ b64decode_utf8 env enc = Ok dec
    /\ v = VStr dec.

(** [bucket.get('spec').get('bucketName')] *)
Definition claim_bucket_name (bucket : value) : result value :=
  (py_get "spec" bucket >>= py_get "bucketName")%res.

(** Two claims, the second without a bucket name. *)
Definition two_claims : value :=
  VDict [("items",
          VList [VDict [("spec", VDict [("bucketName", VStr "mybucket-1")])];
                 VDict [("spec", VDict [])]])].

(** The posts of [check_data_reduction]. *)
Definition auth_post (url : value) (o : MCG) : call :=
  CallPost url (auth_payload o).
Definition read_post (url : value) (bucketname : string) (nb_token : value) : call :=
  CallPost url (read_bucket_payload bucketname nb_token).

(** States of the scripted world for the reduction check: one sample below
    the threshold; a first sample above it with three granted; a reply
    without token. *)
Definition low_sample_state : state script :=
  started (with_rpc [Ok auth_reply; Ok (read_bucket_reply 100 10);
                     Ok (read_bucket_reply 200 20)] 1 quiet_script).
Definition no_token_state : state script :=
  started (with_rpc [Ok (VDict [("reply", VDict [])])] 1 quiet_script).

(** * Properties *)

(** ** The CLI listing *)

Lemma sample_output_lines :
  split_on "010"%char sample_output =
  ["NAME  BUCKET"; "--- ---"; "foo  mybucket-1"; "bar  mybucket-2"; ""].
Proof. reflexivity. Qed.

Lemma cli_list_result {W} (env : Env W) (st : state W) :
  fst (cli_list_all_bucket_names env st) =
  bindR (fst (run_mcg_cmd env "obc list" (world st))) parse_obc_list.
Proof.
  unfold cli_list_all_bucket_names, bind, extern, lift.
  destruct (run_mcg_cmd env "obc list" (world st)) as [[out | e] w']; reflexivity.
Qed.

(** C1, as amended: on the tool output of the scenario the CLI listing
    returns the three names ["---"; "mybucket-1"; "mybucket-2"]: the first
    line (the header) and the last piece (the empty string after the final
    newline) are dropped, and the separator line is a row like the others. *)
Theorem cli_list_sample_output {W} (env : Env W) (st : state W) (w' : W) :
  run_mcg_cmd env "obc list" (world st) = (Ok sample_output, w') ->
  fst (cli_list_all_bucket_names env st) = Ok ["---"; "mybucket-1"; "mybucket-2"].
Proof.
  intros Hrun. rewrite cli_list_result, Hrun. reflexivity.
Qed.

Lemma cli_list_sample_output_witness :
  fst (cli_list_all_bucket_names script_env (started quiet_script))
  = Ok ["---"; "mybucket-1"; "mybucket-2"].
Proof.
  apply (cli_list_sample_output script_env (started quiet_script) quiet_script).
  reflexivity.
Defined.

(** C1, as stated, fails: on that output the listing is not
    ["mybucket-1"; "mybucket-2"]. *)
Lemma cli_list_sample_output_not_two_names :
  run_mcg_cmd script_env "obc list" (world (started quiet_script))
  = (Ok sample_output, quiet_script)
  /\ fst (cli_list_all_bucket_names script_env (started quiet_script))
     <> Ok ["mybucket-1"; "mybucket-2"].
Proof.
  split; [reflexivity | vm_compute; discriminate].
Qed.

(** ** The CLI existence check *)

Lemma str_in_In (x : string) (l : list string) :
  str_in x l = true <-> In x l.
Proof.
  unfold str_in. rewrite existsb_exists. split.
  - intros [y [Hy Heq]]. apply String.eqb_eq in Heq. now subst.
  - intros H. exists x. split; [assumption | apply String.eqb_refl].
Qed.

Lemma cli_verify_result {W} (env : Env W) (bucketname : string) (st : state W) :
  fst (cli_verify_bucket_exists env bucketname st) =
  bindR (fst (cli_list_all_bucket_names env st))
        (fun l => Ok (str_in bucketname l)).
Proof.
  unfold cli_verify_bucket_exists, bind at 1, ret.
  destruct (cli_list_all_bucket_names env st) as [[l | e] st']; reflexivity.
Qed.

(** C6: the CLI existence check returns [True] exactly when the name is in
    the list the CLI listing returns from the same state (hence on the
    same tool output), [False] exactly when the listing returns a list
    without the name, and raises exactly what the listing raises. *)
Theorem cli_verify_iff_member {W} (env : Env W) (bucketname : string) (st : state W) :
  (fst (cli_verify_bucket_exists env bucketname st) = Ok true <->
   exists l, fst (cli_list_all_bucket_names env st) = Ok l /\ In bucketname l)
  /\ (fst (cli_verify_bucket_exists env bucketname st) = Ok false <->
      exists l, fst (cli_list_all_bucket_names env st) = Ok l /\ ~ In bucketname l)
  /\ (forall e, fst (cli_verify_bucket_exists env bucketname st) = Raise e <->
                fst (cli_list_all_bucket_names env st) = Raise e).
Proof.
  rewrite cli_verify_result.
  destruct (fst (cli_list_all_bucket_names env st)) as [l | e0]; cbn [bindR].
  - split; [| split].
    + split.
      * intros H. exists l. split; [reflexivity |].
        apply str_in_In. congruence.
      * intros [l' [Hl' Hin]]. injection Hl' as <-.
        f_equal. now apply str_in_In.
    + split.
      * intros H. exists l. split; [reflexivity |].
        intros Hin. apply str_in_In in Hin. congruence.
      * intros [l' [Hl' Hnin]]. injection Hl' as <-.
        f_equal. destruct (str_in bucketname l) eqn:E; [| reflexivity].
        apply str_in_In in E. contradiction.
    + intros e. split; discriminate.
  - split; [| split].
    + split; [discriminate | intros [l [Hl _]]; discriminate].
    + split; [discriminate | intros [l [Hl _]]; discriminate].
    + intros e. split; intros H; injection H as ->; reflexivity.
Qed.

(** ** The existence checks that catch exceptions *)

Lemma s3_verify_result {W} (env : Env W) (bucketname : string) (st : state W)
      (r : S3Resource) :
  s3_resource (self st) = Some r ->
  fst (s3_verify_bucket_exists env bucketname st) =
  match fst (head_bucket env r bucketname (world st)) with
  | Ok _ => Ok true
  | Raise (ClientError _) => Ok false
  | Raise e => Raise e
  end.
Proof.
  intros Hr.
  unfold s3_verify_bucket_exists, try_except, bind, the_s3_resource, bind,
    get_self, extern, ret, raise.
  rewrite Hr. cbn.
  destruct (head_bucket env r bucketname (world st)) as [[u | e] w']; cbn;
    [reflexivity |].
  destruct e; reflexivity.
Qed.

(** C2, at the failing input: the probe answers with the protocol error
    403 (access denied), which is not "not found", and the check returns
    [False] instead of passing the error on. *)
Theorem s3_verify_forbidden_returns_false :
  fst (head_bucket script_env
         {| endpoint_url := VStr "https://s3.us-east-2.example.com";
            aws_access_key_id := VStr "AKIA123";
            aws_secret_access_key := VStr "s3cr3t" |}
         "mybucket-1"
         (with_head (Raise (ClientError "403")) quiet_script))
  = Raise (ClientError "403")
  /\ fst (s3_verify_bucket_exists script_env "mybucket-1"
            (started (with_head (Raise (ClientError "403")) quiet_script)))
     = Ok false.
Proof.
  split; reflexivity.
Qed.

Lemma oc_verify_result {W} (env : Env W) (bucketname : string) (st : state W) :
  fst (oc_verify_bucket_exists env bucketname st) =
  match fst (ocp_get env {| ocp_kind := "obc"; ocp_namespace := namespace (self st) |}
                     (Some (VStr bucketname)) (world st)) with
  | Ok _ => Ok true
  | Raise (CommandFailed r) =>
      if str_contains "NotFound" r then Ok false else Raise (CommandFailed r)
  | Raise e => Raise e
  end.
Proof.
  unfold oc_verify_bucket_exists, try_except, bind, OCP_get, get_self, extern, ret.
  cbn.
  destruct (ocp_get env _ (Some (VStr bucketname)) (world st)) as [[v | e] w']; cbn;
    [reflexivity |].
  destruct e; try reflexivity.
  destruct (str_contains "NotFound" repr); reflexivity.
Qed.

(** C4: with [r] the outcome of fetching the claim named [bucketname], the
    resource-API existence check returns [False] when [r] is a
    [CommandFailed] whose [repr] contains "NotFound", raises the same
    exception when [r] is any other exception, and returns [True] when the
    fetch succeeds. *)
Theorem oc_verify_bucket_exists_cases {W} (env : Env W) (bucketname : string)
        (st : state W) :
  let r := fst (ocp_get env
                  {| ocp_kind := "obc"; ocp_namespace := namespace (self st) |}
                  (Some (VStr bucketname)) (world st)) in
  (forall repr, r = Raise (CommandFailed repr) ->
                str_contains "NotFound" repr = true ->
                fst (oc_verify_bucket_exists env bucketname st) = Ok false)
  /\ (forall repr, r = Raise (CommandFailed repr) ->
                   str_contains "NotFound" repr = false ->
                   fst (oc_verify_bucket_exists env bucketname st)
                   = Raise (CommandFailed repr))
  /\ (forall e, r = Raise e ->
                (forall repr, e <> CommandFailed repr) ->
                fst (oc_verify_bucket_exists env bucketname st) = Raise e)
  /\ (forall v, r = Ok v ->
                fst (oc_verify_bucket_exists env bucketname st) = Ok true).
Proof.
  intros r. subst r. rewrite oc_verify_result.
  repeat split.
  - intros repr -> ->. reflexivity.
  - intros repr -> ->. reflexivity.
  - intros e -> Hne. destruct e; try reflexivity.
    exfalso. now apply (Hne repr).
  - intros v ->. reflexivity.
Qed.

(** The scenario of C4: the claim "ghost" is absent. *)
Lemma oc_verify_bucket_exists_cases_witness :
  fst (oc_verify_bucket_exists script_env "ghost"
         (started (with_obc (Raise ghost_not_found) quiet_script)))
  = Ok false.
Proof.
  refine (proj1 (oc_verify_bucket_exists_cases script_env "ghost"
                   (started (with_obc (Raise ghost_not_found) quiet_script)))
                _ _ _).
  - reflexivity.
  - reflexivity.
Defined.

(** ** Construction *)

Ltac mcg_simpl H :=
  cbn [self world calls fst snd
       s3_resource s3_endpoint ocp_resource mgmt_endpoint region access_key_id
       access_key namespace noobaa_user noobaa_password _ocp_resource
       set_s3_resource set_s3_endpoint set_mgmt_endpoint set_region
       set_access_key_id set_access_key set_namespace set_noobaa_user
       set_noobaa_password set__ocp_resource class_attributes] in H.

Lemma secret_field_ok {W} (env : Env W) (secret : value) (k : string) (v : value) :
  secret_field env secret k = Ok v -> secret_has secret k = true.
Proof.
  unfold secret_field, secret_has.
  destruct (bindR (py_get "data" secret) (py_get k)) as [x | e]; cbn [bindR].
  - destruct x; cbn; solve [discriminate | reflexivity].
  - discriminate.
Qed.

Lemma new_MCG_ok {W} (env : Env W) (w : W) (log : list call)
      (o : MCG) (w' : W) (log' : list call) :
  new_MCG env w log = (Ok o, (w', log')) ->
  exists ns results w1 name secret,
    dict_subscript (ENV_DATA env) "cluster_namespace" = Ok ns
    /\ ocp_get env {| ocp_kind := "noobaa"; ocp_namespace := ns |} None w
       = (Ok results, w1)
    /\ secret_ref_name results = Ok name
    /\ ocp_get env {| ocp_kind := "secret"; ocp_namespace := ns |} (Some name) w1
       = (Ok secret, w')
    /\ (forall k, In k required_fields -> secret_has secret k = true)
    /\ log' = log ++ [CallOcpGet {| ocp_kind := "noobaa"; ocp_namespace := ns |} None;
                      CallOcpGet {| ocp_kind := "secret"; ocp_namespace := ns |}
                                 (Some name)].
Proof.
  unfold new_MCG, __init__, bind, lift, set_attr, get_self, OCP_get, extern.
  intros H. mcg_simpl H.
  destruct (dict_subscript (ENV_DATA env) "cluster_namespace") as [ns | e] eqn:Ens;
    [| discriminate H].
  destruct (ocp_get env {| ocp_kind := "noobaa"; ocp_namespace := ns |} None w)
    as [[results | e] w1] eqn:Eres; [| discriminate H].
  mcg_simpl H.
  destruct (bindR _ (py_item 0)) as [s3 | e] in H; [| discriminate H].
  destruct (bindR _ (py_item 0)) as [mgmt | e] in H; [| discriminate H].
  mcg_simpl H.
  destruct (bindR (py_split "." s3) _) as [reg | e] in H; [| discriminate H].
  fold (secret_ref_name results) in H.
  destruct (secret_ref_name results) as [name | e] eqn:Ename; [| discriminate H].
  mcg_simpl H.
  destruct (ocp_get env {| ocp_kind := "secret"; ocp_namespace := ns |} (Some name) w1)
    as [[secret | e] w2] eqn:Esec; [| discriminate H].
  destruct (secret_field env secret "AWS_ACCESS_KEY_ID") as [k1 | e] eqn:E1;
    [| discriminate H].
  destruct (secret_field env secret "AWS_SECRET_ACCESS_KEY") as [k2 | e] eqn:E2;
    [| discriminate H].
  destruct (secret_field env secret "email") as [u | e] eqn:E3; [| discriminate H].
  destruct (secret_field env secret "password") as [p | e] eqn:E4; [| discriminate H].
  mcg_simpl H.
  destruct (boto3_resource env s3 k1 k2) as [r | e]; [| discriminate H].
  mcg_simpl H. injection H as Ho Hw Hlog.
  exists ns, results, w1, name, secret. subst w'.
  repeat split; try assumption; try reflexivity.
  - intros k [<- | [<- | [<- | [<- | []]]]];
      eauto using secret_field_ok.
  - rewrite <- Hlog, <- app_assoc. reflexivity.
Qed.

(** ** Methods that only read *)

Create HintDb keeps.

Section ReadOnly.
Context {W : Type}.

Lemma read_only_refl (st : state W) : read_only st st.
Proof.
  split; [reflexivity |].
  exists []. split; [now rewrite app_nil_r | reflexivity].
Qed.

Lemma read_only_trans (st1 st2 st3 : state W) :
  read_only st1 st2 -> read_only st2 st3 -> read_only st1 st3.
Proof.
  intros [Hs1 [n1 [Hc1 Hq1]]] [Hs2 [n2 [Hc2 Hq2]]].
  split; [congruence |].
  exists (n1 ++ n2). split.
  - rewrite Hc2, Hc1, app_assoc. reflexivity.
  - rewrite forallb_app, Hq1, Hq2. reflexivity.
Qed.

Lemma keeps_ret {A} (a : A) : keeps (W := W) (ret a).
Proof. intros st. apply read_only_refl. Qed.

Lemma keeps_raise {A} (e : exn) : keeps (W := W) (A := A) (raise e).
Proof. intros st. apply read_only_refl. Qed.

Lemma keeps_lift {A} (r : result A) : keeps (W := W) (lift r).
Proof. intros st. apply read_only_refl. Qed.

Lemma keeps_get_self : keeps (W := W) get_self.
Proof. intros st. apply read_only_refl. Qed.

Lemma keeps_extern {A} (c : call) (f : W -> result A * W) :
  resolves c = false -> keeps (extern c f).
Proof.
  intros Hc st. unfold extern.
  destruct (f (world st)) as [r w']. cbn.
  split; [reflexivity |].
  exists [c]. split; [reflexivity |].
  cbn. now rewrite Hc.
Qed.

Lemma keeps_bind {A B} (m : M W A) (f : A -> M W B) :
  keeps m -> (forall a, keeps (f a)) -> keeps (bind m f).
Proof.
  intros Hm Hf st. unfold bind.
  specialize (Hm st).
  destruct (m st) as [[a | e] st1]; cbn in Hm |- *.
  - eapply read_only_trans; [exact Hm | apply Hf].
  - exact Hm.
Qed.

Lemma keeps_try_except {A} (m : M W A) (handler : exn -> option (M W A)) :
  keeps m ->
  (forall e h, handler e = Some h -> keeps h) ->
  keeps (try_except m handler).
Proof.
  intros Hm Hh st. unfold try_except.
  specialize (Hm st).
  destruct (m st) as [[a | e] st1]; cbn in Hm |- *.
  - exact Hm.
  - destruct (handler e) as [h |] eqn:E.
    + eapply read_only_trans; [exact Hm | eapply Hh; eassumption].
    + exact Hm.
Qed.

Context (env : Env W).

Hint Resolve keeps_ret keeps_raise keeps_lift keeps_get_self : keeps.

Ltac keeps_steps :=
  repeat first
    [ apply keeps_bind; [| intros ?]
    | apply keeps_extern; reflexivity
    | solve [auto with keeps] ].

Lemma keeps_the_s3_resource : keeps (the_s3_resource (W := W)).
Proof.
  unfold the_s3_resource. keeps_steps.
  destruct (s3_resource _); auto with keeps.
Qed.

Lemma keeps_s3_list : keeps (s3_list_all_bucket_names env).
Proof.
  unfold s3_list_all_bucket_names.
  apply keeps_bind; [apply keeps_the_s3_resource | intros r].
  keeps_steps.
Qed.

Lemma keeps_oc_list : keeps (oc_list_all_bucket_names env).
Proof. unfold oc_list_all_bucket_names, OCP_get. keeps_steps. Qed.

Lemma keeps_cli_list : keeps (cli_list_all_bucket_names env).
Proof. unfold cli_list_all_bucket_names. keeps_steps. Qed.

Lemma keeps_s3_verify (bucketname : string) :
  keeps (s3_verify_bucket_exists env bucketname).
Proof.
  unfold s3_verify_bucket_exists. apply keeps_try_except.
  - apply keeps_bind; [apply keeps_the_s3_resource | intros r].
    keeps_steps.
  - intros e h. destruct e; try discriminate.
    intros [= <-]. auto with keeps.
Qed.

Lemma keeps_oc_verify (bucketname : string) :
  keeps (oc_verify_bucket_exists env bucketname).
Proof.
  unfold oc_verify_bucket_exists, OCP_get. apply keeps_try_except.
  - keeps_steps.
  - intros e h. destruct e; try discriminate.
    intros [= <-]. destruct (str_contains "NotFound" repr); auto with keeps.
Qed.

Lemma keeps_cli_verify (bucketname : string) :
  keeps (cli_verify_bucket_exists env bucketname).
Proof.
  unfold cli_verify_bucket_exists.
  apply keeps_bind; [apply keeps_cli_list | intros l]. auto with keeps.
Qed.

Lemma keeps_create_auth : keeps (create_auth env).
Proof. unfold create_auth. keeps_steps. Qed.

Lemma keeps__check_reduction (url : value) (bucketname : string) (tok : value) :
  keeps (_check_reduction env url bucketname tok).
Proof. unfold _check_reduction. keeps_steps. Qed.

Lemma read_only_for_samples (check : M W (value * value)) :
  keeps check ->
  forall polls bound st,
    read_only st (snd (for_samples check polls bound st)).
Proof.
  intros Hc. induction polls as [| polls IH]; intros bound st; cbn.
  - apply read_only_refl.
  - specialize (Hc st).
    destruct (check st) as [[[total_size total_reduced] | e] st1]; cbn in Hc |- *.
    + destruct (py_sub total_size total_reduced) as [d | e]; cbn; [| exact Hc].
      destruct (d >? 80000000)%Z; cbn; [exact Hc |].
      eapply read_only_trans; [exact Hc | apply IH].
    + exact Hc.
Qed.

Lemma keeps_try_for_samples (check : M W (value * value)) (polls : nat) :
  keeps check -> keeps (try_for_samples check polls).
Proof.
  intros Hc st. unfold try_for_samples.
  pose proof (read_only_for_samples check Hc polls None st) as H.
  destruct (for_samples check polls None st) as [[r bound] st1]. cbn in H.
  destruct r as [b | e]; [exact H |].
  destruct e; try exact H.
  destruct bound as [[total_size total_reduced] |]; [| exact H].
  destruct (py_sub total_size total_reduced); exact H.
Qed.

Lemma keeps_check_data_reduction (bucketname : string) :
  keeps (check_data_reduction env bucketname).
Proof.
  unfold check_data_reduction.
  apply keeps_bind; [apply keeps_create_auth | intros session].
  intros st. apply keeps_try_for_samples, keeps__check_reduction.
Qed.

End ReadOnly.

(** C8: none of the three listings, the three existence checks and
    [check_data_reduction] changes an attribute of the instance, whatever
    the state it starts in and whether it returns or raises. *)
Theorem operations_preserve_self {W} (env : Env W) (bucketname : string)
        (st : state W) :
  self (snd (s3_list_all_bucket_names env st)) = self st
  /\ self (snd (oc_list_all_bucket_names env st)) = self st
  /\ self (snd (cli_list_all_bucket_names env st)) = self st
  /\ self (snd (s3_verify_bucket_exists env bucketname st)) = self st
  /\ self (snd (oc_verify_bucket_exists env bucketname st)) = self st
  /\ self (snd (cli_verify_bucket_exists env bucketname st)) = self st
  /\ self (snd (check_data_reduction env bucketname st)) = self st.
Proof.
  repeat split.
  - apply (keeps_s3_list env st).
  - apply (keeps_oc_list env st).
  - apply (keeps_cli_list env st).
  - apply (keeps_s3_verify env bucketname st).
  - apply (keeps_oc_verify env bucketname st).
  - apply (keeps_cli_verify env bucketname st).
  - apply (keeps_check_data_reduction env bucketname st).
Qed.

(** C5: with [secret] the secret that [__init__] fetches, if one of the
    fields AWS_ACCESS_KEY_ID, AWS_SECRET_ACCESS_KEY, email and password is
    missing from it, [MCG()] raises and gives no instance; when [MCG()]
    gives an instance, the calls it made are one fetch of the gateway
    resource followed by one fetch of the secret; and no operation on the
    instance fetches either of them again. *)
Theorem construction_resolves_once {W} (env : Env W) (w : W) (log : list call) :
  (forall ns results w1 name secret w2 k,
      dict_subscript (ENV_DATA env) "cluster_namespace" = Ok ns ->
      ocp_get env {| ocp_kind := "noobaa"; ocp_namespace := ns |} None w
      = (Ok results, w1) ->
      secret_ref_name results = Ok name ->
      ocp_get env {| ocp_kind := "secret"; ocp_namespace := ns |} (Some name) w1
      = (Ok secret, w2) ->
      In k required_fields ->
      secret_has secret k = false ->
      exists e, fst (new_MCG env w log) = Raise e)
  /\ (forall o w' log',
         new_MCG env w log = (Ok o, (w', log')) ->
         exists ns name,
           log' = log ++ [CallOcpGet {| ocp_kind := "noobaa"; ocp_namespace := ns |}
                                     None;
                          CallOcpGet {| ocp_kind := "secret"; ocp_namespace := ns |}
                                     (Some name)])
  /\ (forall bucketname st,
         resolves_nothing st (snd (s3_list_all_bucket_names env st))
         /\ resolves_nothing st (snd (oc_list_all_bucket_names env st))
         /\ resolves_nothing st (snd (cli_list_all_bucket_names env st))
         /\ resolves_nothing st (snd (s3_verify_bucket_exists env bucketname st))
         /\ resolves_nothing st (snd (oc_verify_bucket_exists env bucketname st))
         /\ resolves_nothing st (snd (cli_verify_bucket_exists env bucketname st))
         /\ resolves_nothing st (snd (check_data_reduction env bucketname st))).
Proof.
  split; [| split].
  - intros ns results w1 name secret w2 k Hns Hres Hname Hsec Hk Hmiss.
    destruct (new_MCG env w log) as [[o | e] [w' log']] eqn:E.
    + apply new_MCG_ok in E.
      destruct E as (ns' & results' & w1' & name' & secret' & Hns' & Hres' & Hname'
                     & Hsec' & Hall & _).
      rewrite Hns in Hns'. injection Hns' as <-.
      rewrite Hres in Hres'. injection Hres' as <- <-.
      rewrite Hname in Hname'. injection Hname' as <-.
      rewrite Hsec in Hsec'. injection Hsec' as <- _.
      specialize (Hall k Hk). congruence.
    + exists e. reflexivity.
  - intros o w' log' E. apply new_MCG_ok in E.
    destruct E as (ns & results & w1 & name & secret & _ & _ & _ & _ & _ & Hlog).
    exists ns, name. exact Hlog.
  - intros bucketname st. repeat split.
    + apply (keeps_s3_list env st).
    + apply (keeps_oc_list env st).
    + apply (keeps_cli_list env st).
    + apply (keeps_s3_verify env bucketname st).
    + apply (keeps_oc_verify env bucketname st).
    + apply (keeps_cli_verify env bucketname st).
    + apply (keeps_check_data_reduction env bucketname st).
Qed.

(** The secret without its password: the construction raises. *)
Lemma construction_resolves_once_witness :
  exists e,
    fst (new_MCG script_env (with_secret (Ok secret_without_password) quiet_script) [])
    = Raise e.
Proof.
  refine (proj1 (construction_resolves_once script_env
                   (with_secret (Ok secret_without_password) quiet_script) [])
                (VStr "openshift-storage") noobaa_cr _ (VStr "noobaa-admin")
                secret_without_password _ "password" _ _ _ _ _ _).
  - reflexivity.
  - reflexivity.
  - reflexivity.
  - reflexivity.
  - cbn. tauto.
  - reflexivity.
Defined.

(** ** The reduction check *)

(** C7: one call of the check function posts the [read_bucket] request for
    the same bucket twice; the total size comes from the answer to the
    first request and the reduced size from the answer to the second, so
    the pair is made of two readings. *)
Theorem check_reduction_reads_twice {W} (env : Env W) (url : value)
        (bucketname : string) (tok : value) (st : state W)
        (r1 r2 : value) (w1 w2 : W) (v1 v2 : value) :
  requests_post env url (read_bucket_payload bucketname tok) (world st) = (Ok r1, w1) ->
  (py_get "reply" r1 >>= py_get "data" >>= py_get "size")%res = Ok v1 ->
  requests_post env url (read_bucket_payload bucketname tok) w1 = (Ok r2, w2) ->
  (py_get "reply" r2 >>= py_get "data" >>= py_get "size_reduced")%res = Ok v2 ->
  _check_reduction env url bucketname tok st
  = (Ok (v1, v2),
     {| self := self st;
        world := w2;
        calls := calls st ++ [CallPost url (read_bucket_payload bucketname tok);
                              CallPost url (read_bucket_payload bucketname tok)] |}).
Proof.
  intros H1 Hv1 H2 Hv2.
  unfold _check_reduction, bind, extern, lift, ret.
  rewrite H1. cbn [self world calls]. rewrite Hv1, H2.
  cbn [self world calls]. rewrite Hv2, <- app_assoc. reflexivity.
Qed.

(** Two readings that differ: (100, 10) then (200, 20) give the pair
    (100, 20). *)
Lemma check_reduction_reads_twice_witness :
  fst (_check_reduction script_env (VStr "https://mgmt.us-east-2.example.com/rpc")
         "mybucket-1" (VStr "tok")
         (started (with_rpc [Ok (read_bucket_reply 100 10);
                             Ok (read_bucket_reply 200 20)] 1 quiet_script)))
  = Ok (VInt 100, VInt 20).
Proof.
  rewrite (check_reduction_reads_twice script_env
             (VStr "https://mgmt.us-east-2.example.com/rpc") "mybucket-1" (VStr "tok")
             (started (with_rpc [Ok (read_bucket_reply 100 10);
                                 Ok (read_bucket_reply 200 20)] 1 quiet_script))
             (read_bucket_reply 100 10) (read_bucket_reply 200 20)
             (with_rpc [Ok (read_bucket_reply 200 20)] 1 quiet_script)
             (with_rpc [] 1 quiet_script)
             (VInt 100) (VInt 20)).
  - reflexivity.
  - reflexivity.
  - reflexivity.
  - reflexivity.
  - reflexivity.
Defined.

Section Loop.
Context {W : Type} (check : M W (value * value)).

(** A run of samples below the threshold uses up the sampler: the loop ends
    with the timeout, and the variables hold the last sample. *)
Lemma for_samples_timeout (l : list (Z * Z)) :
  forall st st' bound,
    yields check st l st' ->
    none_enough l = true ->
    for_samples check (length l) bound st
    = ((Raise TimeoutExpiredError,
        match l with
        | [] => bound
        | _ :: _ => Some (VInt (fst (last l (0, 0)%Z)), VInt (snd (last l (0, 0)%Z)))
        end), st').
Proof.
  induction l as [| [a b] l IH]; intros st st' bound Hy Hn.
  - inversion Hy; subst. reflexivity.
  - inversion Hy as [| ? ? ? st1 ? ? Hc Hy']; subst.
    cbn [length for_samples]. rewrite Hc. cbn [py_sub].
    cbn in Hn. apply andb_true_iff in Hn as [Hab Hn].
    unfold reduced_enough in Hab. cbn [fst snd] in Hab.
    apply negb_true_iff in Hab. rewrite Hab.
    rewrite (IH st1 st' _ Hy' Hn).
    destruct l as [| s l']; reflexivity.
Qed.

(** A first sample above the threshold ends the loop with [True]. *)
Lemma for_samples_enough (l : list (Z * Z)) (s : Z * Z) :
  forall st st' bound polls,
    yields check st (l ++ [s]) st' ->
    none_enough l = true ->
    reduced_enough s = true ->
    length l < polls ->
    for_samples check polls bound st
    = ((Ok true, Some (VInt (fst s), VInt (snd s))), st').
Proof.
  induction l as [| [a b] l IH]; intros st st' bound polls Hy Hn Hs Hlen.
  - destruct polls as [| polls]; [inversion Hlen |].
    cbn [app] in Hy. inversion Hy as [| ? a b st1 ? ? Hc Hy']; subst.
    inversion Hy'; subst.
    cbn [for_samples]. rewrite Hc. cbn [py_sub].
    unfold reduced_enough in Hs. cbn [fst snd] in Hs. rewrite Hs. reflexivity.
  - destruct polls as [| polls]; [inversion Hlen |].
    cbn [app] in Hy. inversion Hy as [| ? ? ? st1 ? ? Hc Hy']; subst.
    cbn [for_samples]. rewrite Hc. cbn [py_sub].
    cbn in Hn. apply andb_true_iff in Hn as [Hab Hn].
    unfold reduced_enough in Hab. cbn [fst snd] in Hab.
    apply negb_true_iff in Hab. rewrite Hab.
    apply IH; try assumption. cbn in Hlen. lia.
Qed.

(** The loop returns [True] only after a sample above the threshold. *)
Lemma for_samples_true_inv :
  forall polls st st' bound bound',
    for_samples check polls bound st = ((Ok true, bound'), st') ->
    exists l s,
      yields check st (l ++ [s]) st'
      /\ none_enough l = true
      /\ reduced_enough s = true
      /\ length l < polls.
Proof.
  induction polls as [| polls IH]; intros st st' bound bound' H.
  - discriminate H.
  - cbn [for_samples] in H.
    destruct (check st) as [[[total_size total_reduced] | e] st1] eqn:Hc;
      [| discriminate H].
    destruct total_size as [| | a | |]; try discriminate H.
    destruct total_reduced as [| | b | |]; try discriminate H.
    cbn [py_sub] in H.
    destruct (a - b >? 80000000)%Z eqn:Hd.
    + injection H as _ <-.
      exists [], (a, b). repeat split.
      * cbn. econstructor; [exact Hc | constructor].
      * exact Hd.
      * cbn. lia.
    + apply IH in H. destruct H as (l & s & Hy & Hn & Hs & Hlen).
      exists ((a, b) :: l), s. repeat split.
      * cbn. econstructor; eassumption.
      * cbn. unfold reduced_enough at 1. cbn [fst snd]. rewrite Hd. exact Hn.
      * exact Hs.
      * cbn. lia.
Qed.

(** With at least one sample and none above the threshold, the [try]
    statement returns [False]. *)
Lemma try_for_samples_false (l : list (Z * Z)) (st st' : state W) :
  yields check st l st' ->
  l <> [] ->
  none_enough l = true ->
  try_for_samples check (length l) st = (Ok false, st').
Proof.
  intros Hy Hne Hn. unfold try_for_samples.
  rewrite (for_samples_timeout l st st' None Hy Hn).
  destruct l as [| s l]; [contradiction | reflexivity].
Qed.

(** It returns [True] exactly when some sample of the run is above the
    threshold. *)
Lemma try_for_samples_true_iff (polls : nat) (st st' : state W) :
  try_for_samples check polls st = (Ok true, st') <->
  exists l s,
    yields check st (l ++ [s]) st'
    /\ none_enough l = true
    /\ reduced_enough s = true
    /\ length l < polls.
Proof.
  unfold try_for_samples. split.
  - intros H.
    destruct (for_samples check polls None st) as [[r bound] st1] eqn:E.
    destruct r as [b | e].
    + injection H as -> ->. eapply for_samples_true_inv; eassumption.
    + destruct e; try discriminate H.
      destruct bound as [[total_size total_reduced] |]; [| discriminate H].
      destruct (py_sub total_size total_reduced); discriminate H.
  - intros (l & s & Hy & Hn & Hs & Hlen).
    rewrite (for_samples_enough l s st st' None polls Hy Hn Hs Hlen).
    reflexivity.
Qed.

(** With no sample at all the handler of the timeout raises. *)
Lemma try_for_samples_unbound (st : state W) :
  try_for_samples check 0 st = (Raise (UnboundLocalError "total_size"), st).
Proof. reflexivity. Qed.

(** [False] is returned only after a first sample. *)
Lemma try_for_samples_false_inv (polls : nat) (st st' : state W) :
  try_for_samples check polls st = (Ok false, st') ->
  0 < polls /\ exists sample st1, check st = (Ok sample, st1).
Proof.
  destruct polls as [| polls].
  - rewrite try_for_samples_unbound. discriminate.
  - intros H. split; [lia |].
    unfold try_for_samples in H. cbn [for_samples] in H.
    destruct (check st) as [[sample | e] st1] eqn:Hc.
    + exists sample, st1. reflexivity.
    + destruct e; discriminate H.
Qed.

End Loop.

Lemma check_data_reduction_unfold {W} (env : Env W) (bucketname : string)
      (st : state W) :
  check_data_reduction env bucketname st =
  match create_auth env st with
  | (Ok session, st1) =>
      try_for_samples
        (_check_reduction env (fst session) bucketname (snd session))
        (sampler_polls env 120 5 (world st1)) st1
  | (Raise e, st1) => (Raise e, st1)
  end.
Proof. reflexivity. Qed.

(** C10: once the session is open, if the sampler raises the timeout
    before it has yielded a sample, the handler reads [total_size], which
    was never bound, and [check_data_reduction] raises
    [UnboundLocalError] (a [NameError]) instead of returning [False]; and
    whenever it returns [False], the sampler had a sample to yield and the
    first call of the check function returned one. *)
Theorem check_data_reduction_timeout {W} (env : Env W) (bucketname : string)
        (st : state W) :
  (forall session st1,
      create_auth env st = (Ok session, st1) ->
      sampler_polls env 120 5 (world st1) = 0 ->
      check_data_reduction env bucketname st
      = (Raise (UnboundLocalError "total_size"), st1))
  /\ (fst (check_data_reduction env bucketname st) = Ok false ->
      exists session st1 sample st2,
        create_auth env st = (Ok session, st1)
        /\ 0 < sampler_polls env 120 5 (world st1)
        /\ _check_reduction env (fst session) bucketname (snd session) st1
           = (Ok sample, st2)).
Proof.
  rewrite check_data_reduction_unfold. split.
  - intros session st1 Hauth Hpolls. rewrite Hauth, Hpolls.
    apply try_for_samples_unbound.
  - destruct (create_auth env st) as [[session | e] st1]; [| discriminate].
    intros H.
    destruct (try_for_samples _ _ st1) as [r st'] eqn:E.
    cbn [fst] in H. subst r.
    apply try_for_samples_false_inv in E. destruct E as [Hpos [sample [st2 Hc]]].
    exists session, st1, sample, st2. repeat split; assumption.
Qed.

(** The session opens and the sampler has no sample to give. *)
Lemma check_data_reduction_timeout_witness :
  fst (check_data_reduction script_env "mybucket-1"
         (started (with_rpc [Ok auth_reply] 0 quiet_script)))
  = Raise (UnboundLocalError "total_size").
Proof.
  refine (f_equal fst
            (proj1 (check_data_reduction_timeout script_env "mybucket-1"
                      (started (with_rpc [Ok auth_reply] 0 quiet_script)))
                   (VStr "https://mgmt.us-east-2.example.com/rpc", VStr "tok")
                   {| self := built;
                      world := with_rpc [] 0 quiet_script;
                      calls := [CallPost (VStr "https://mgmt.us-east-2.example.com/rpc")
                                         (auth_payload built)] |} _ _)).
  - vm_compute. reflexivity.
  - reflexivity.
Defined.

(** C3, where it fails: the timeout comes before the first sample, no
    sample is above the threshold, and the result is an exception, not
    [False]. *)
Theorem check_data_reduction_no_sample_raises :
  sampler_polls script_env 120 5 (with_rpc [] 0 quiet_script) = 0
  /\ fst (check_data_reduction script_env "mybucket-1"
            (started (with_rpc [Ok auth_reply] 0 quiet_script)))
     = Raise (UnboundLocalError "total_size").
Proof.
  split; reflexivity.
Qed.

(** What holds of C3: [True] exactly when a sample of the run is above the
    threshold, and [False] when the run has at least one sample and none
    is above it. *)
Lemma check_data_reduction_samples {W} (env : Env W) (bucketname : string)
      (st st1 : state W) (session : value * value) :
  create_auth env st = (Ok session, st1) ->
  let check := _check_reduction env (fst session) bucketname (snd session) in
  (forall st',
      check_data_reduction env bucketname st = (Ok true, st') <->
      exists l s,
        yields check st1 (l ++ [s]) st'
        /\ none_enough l = true
        /\ reduced_enough s = true
        /\ length l < sampler_polls env 120 5 (world st1))
  /\ (forall l st',
         yields check st1 l st' ->
         length l = sampler_polls env 120 5 (world st1) ->
         l <> [] ->
         none_enough l = true ->
         check_data_reduction env bucketname st = (Ok false, st')).
Proof.
  intros Hauth check. rewrite check_data_reduction_unfold, Hauth. split.
  - intros st'. apply try_for_samples_true_iff.
  - intros l st' Hy Hlen Hne Hn. rewrite <- Hlen.
    now apply try_for_samples_false.
Qed.

(** ** The sampler against a consumer that is never satisfied *)

Section Sampler.
Local Open Scope nat_scope.
Import TimeoutSampler.

Context {A : Type} (T I : nat) (check : nat -> A) (satisfying : A -> bool).
Hypothesis never : forall t, satisfying (check t) = false.

(** The number of invocations from [elapsed] on, when the timeout is
    signalled. *)
Lemma poll_count :
  forall fuel elapsed r n,
    poll T I check satisfying fuel elapsed = Some (r, n) ->
    r = TimedOut
    /\ ((T < elapsed /\ n = 0)
        \/ (elapsed <= T /\ 0 < I /\ n = (T - elapsed) / I + 1)).
Proof.
  induction fuel as [| fuel IH]; intros elapsed r n H; [discriminate H |].
  cbn [poll] in H.
  destruct (T <? elapsed) eqn:Hlt.
  - injection H as <- <-. apply Nat.ltb_lt in Hlt. auto.
  - apply Nat.ltb_ge in Hlt. rewrite never in H.
    destruct (poll T I check satisfying fuel (elapsed + I)) as [[r' n'] |] eqn:E;
      [| discriminate H].
    injection H as <- <-.
    destruct (IH _ _ _ E) as [-> [[Hout ->] | [Hin [HI ->]]]].
    + split; [reflexivity | right].
      repeat split; [assumption | lia |].
      rewrite Nat.div_small by lia. reflexivity.
    + split; [reflexivity | right].
      repeat split; [assumption | assumption |].
      replace (T - elapsed) with (T - (elapsed + I) + 1 * I) by lia.
      rewrite Nat.div_add by lia. lia.
Qed.

(** With a positive interval the timeout is signalled within [T + 2 -
    elapsed] transitions. *)
Lemma poll_times_out :
  0 < I ->
  forall fuel elapsed,
    T + 1 - elapsed < fuel ->
    exists n, poll T I check satisfying fuel elapsed = Some (TimedOut, n).
Proof.
  intros HI. induction fuel as [| fuel IH]; intros elapsed Hfuel; [lia |].
  cbn [poll]. destruct (T <? elapsed) eqn:Hlt.
  - exists 0. reflexivity.
  - apply Nat.ltb_ge in Hlt. rewrite never.
    destruct (IH (elapsed + I)) as [n Hn]; [lia |].
    rewrite Hn. exists (S n). reflexivity.
Qed.

Lemma floor_le_ceil : T / I <= ceil_div T I.
Proof. unfold ceil_div. destruct (T mod I =? 0); lia. Qed.

Lemma count_in_bounds (f : first_call) (r : verdict A) (n fuel : nat) :
  poll T I check satisfying fuel (start I f) = Some (r, n) ->
  r = TimedOut /\ T / I <= n <= ceil_div T I + 1.
Proof.
  intros H. apply poll_count in H.
  destruct H as [-> H]. split; [reflexivity |].
  pose proof floor_le_ceil as Hfc.
  destruct f; cbn [start] in H.
  - destruct H as [[Hlt _] | [_ [HI ->]]]; [lia |].
    rewrite Nat.sub_0_r. lia.
  - destruct H as [[Hlt ->] | [Hle [HI ->]]].
    + rewrite Nat.div_small by lia. lia.
    + assert (Hdiv : T / I = (T - I) / I + 1).
      { rewrite <- Nat.div_add by lia. f_equal. lia. }
      lia.
Qed.

End Sampler.

(** C9: against a check function whose values never satisfy the consumer,
    whenever the sampler signals the timeout it has invoked the check
    function at least floor(T/I) and at most ceil(T/I)+1 times, whether the
    first call is immediate or comes after the first interval; and with a
    positive interval it does signal the timeout, after the same number of
    invocations for every sufficient number of transitions. *)
Theorem poll_invocations_bounds {A : Type} (T I : nat) (check : nat -> A)
        (satisfying : A -> bool) (f : TimeoutSampler.first_call) :
  (forall t, satisfying (check t) = false) ->
  (forall fuel r n,
      TimeoutSampler.poll T I check satisfying fuel (TimeoutSampler.start I f)
      = Some (r, n) ->
      r = TimeoutSampler.TimedOut
      /\ (T / I <= n <= TimeoutSampler.ceil_div T I + 1)%nat)
  /\ ((0 < I)%nat ->
      exists n,
        (T / I <= n <= TimeoutSampler.ceil_div T I + 1)%nat
        /\ forall fuel,
            (T + 1 < fuel)%nat ->
            TimeoutSampler.poll T I check satisfying fuel (TimeoutSampler.start I f)
            = Some (TimeoutSampler.TimedOut, n)).
Proof.
  intros never. split.
  - intros fuel r n H. eapply count_in_bounds; eassumption.
  - intros HI.
    destruct (poll_times_out T I check satisfying never HI (T + 2)
                             (TimeoutSampler.start I f)) as [n Hn]; [lia |].
    exists n. split.
    + eapply (count_in_bounds T I check satisfying never f). exact Hn.
    + intros fuel Hfuel.
      destruct (poll_times_out T I check satisfying never HI fuel
                               (TimeoutSampler.start I f)) as [n' Hn']; [lia |].
      rewrite Hn'. do 2 f_equal.
      apply (poll_count T I check satisfying never) in Hn.
      apply (poll_count T I check satisfying never) in Hn'.
      destruct Hn as [_ Hn], Hn' as [_ Hn']. lia.
Qed.

(** The sampler of [check_data_reduction], 120 seconds and 5 seconds, first
    call immediate: 25 invocations, between 24 and 25. *)
Lemma poll_invocations_bounds_witness :
  TimeoutSampler.poll 120 5 (fun _ => (0, 0)%Z) reduced_enough 200
                      (TimeoutSampler.start 5 TimeoutSampler.Immediate)
  = Some (TimeoutSampler.TimedOut, 25%nat)
  /\ (120 / 5 <= 25 <= TimeoutSampler.ceil_div 120 5 + 1)%nat.
Proof.
  split; [reflexivity |].
  refine (proj2 (proj1 (poll_invocations_bounds 120 5 (fun _ => (0, 0)%Z) reduced_enough
                          TimeoutSampler.Immediate _)
                       200%nat TimeoutSampler.TimedOut 25%nat _)).
  - intros t. reflexivity.
  - reflexivity.
Defined.

(** * Further properties *)

(** ** Splitting *)

Lemma split_on_length (sep : ascii) (s : string) :
  length (split_on sep s) = S (count_char sep s).
Proof.
  induction s as [| c s IH]; [reflexivity |].
  cbn [split_on count_char]. destruct (Ascii.eqb c sep).
  - cbn. now rewrite IH.
  - destruct (split_on sep s) as [| w ws]; [discriminate IH |].
    cbn in IH |- *. exact IH.
Qed.

Lemma split_on_app (sep : ascii) (a b : string) :
  split_on sep (a ++ String sep b) = split_on sep a ++ split_on sep b.
Proof.
  induction a as [| c a IH].
  - cbn. now rewrite Ascii.eqb_refl.
  - cbn [append split_on]. rewrite IH.
    destruct (Ascii.eqb c sep); [reflexivity |].
    pose proof (split_on_length sep a) as Hlen.
    destruct (split_on sep a) as [| w ws]; [discriminate Hlen | reflexivity].
Qed.

Lemma split_on_no_sep (sep : ascii) (s : string) :
  count_char sep s = 0 -> split_on sep s = [s].
Proof.
  induction s as [| c s IH]; [reflexivity |].
  cbn [split_on count_char]. destruct (Ascii.eqb c sep); [discriminate |].
  intros H. rewrite (IH H). reflexivity.
Qed.

Lemma split_on_pieces (sep : ascii) (s : string) :
  Forall (fun piece => count_char sep piece = 0) (split_on sep s).
Proof.
  induction s as [| c s IH]; [repeat constructor |].
  cbn [split_on]. destruct (Ascii.eqb c sep) eqn:E.
  - constructor; [reflexivity | exact IH].
  - destruct (split_on sep s) as [| w ws]; [repeat constructor; cbn; now rewrite E |].
    inversion IH as [| ? ? Hw Hws]; subst.
    constructor; [| exact Hws]. cbn. now rewrite E, Hw.
Qed.

Lemma length_removelast {A} (l : list A) :
  length (removelast l) = length l - 1.
Proof.
  induction l as [| a l IH]; [reflexivity |].
  destruct l as [| b l]; [reflexivity |].
  cbn [removelast length] in IH |- *. rewrite IH. lia.
Qed.

Lemma obc_rows_length (out : string) :
  length (obc_rows out) = count_char "010"%char out - 1.
Proof.
  unfold obc_rows, slice_1_m1. rewrite length_removelast.
  pose proof (split_on_length "010"%char out) as H.
  destruct (split_on "010"%char out) as [| h t]; [discriminate H |].
  cbn in H |- *. lia.
Qed.

(** The rows are what lies between the first newline and the last. *)
Lemma obc_rows_framed (h body t : string) :
  count_char "010"%char h = 0 ->
  count_char "010"%char t = 0 ->
  obc_rows (h ++ nl ++ body ++ nl ++ t) = split_on "010"%char body.
Proof.
  intros Hh Ht. unfold obc_rows, slice_1_m1, nl.
  change (h ++ String "010" "" ++ body ++ String "010" "" ++ t)%string
    with (h ++ String "010" (body ++ String "010" t))%string.
  rewrite !split_on_app, (split_on_no_sep _ h Hh), (split_on_no_sep _ t Ht).
  cbn [app tl]. apply removelast_last.
Qed.

Lemma has_space_app (a b : string) :
  has_space (a ++ b) = has_space a || has_space b.
Proof.
  induction a as [| c a IH]; [reflexivity |].
  cbn. now rewrite IH, orb_assoc.
Qed.

Lemma split_ws_clean (s : string) :
  forall tok, has_space tok = false -> Forall clean_name (split_ws tok s).
Proof.
  induction s as [| c s IH]; intros tok Htok; cbn [split_ws].
  - destruct tok; [constructor |].
    constructor; [| constructor]. split; [discriminate | exact Htok].
  - destruct (is_space c) eqn:Ec.
    + destruct tok.
      * apply IH. reflexivity.
      * constructor; [split; [discriminate | exact Htok] | apply IH; reflexivity].
    + apply IH. rewrite has_space_app, Htok. cbn. now rewrite Ec.
Qed.

(** ** List comprehensions *)

Lemma comprehension_ok {A B} (f : A -> result B) (l : list A) (bs : list B) :
  comprehension f l = Ok bs <-> Forall2 (fun a b => f a = Ok b) l bs.
Proof.
  revert bs. induction l as [| a l IH]; intros bs; cbn [comprehension].
  - split.
    + intros [= <-]. constructor.
    + intros H. inversion H. reflexivity.
  - split.
    + destruct (f a) as [b | e] eqn:Ea; [| discriminate].
      destruct (comprehension f l) as [bs' | e]; [| discriminate].
      intros [= <-]. constructor; [exact Ea | now apply IH].
    + intros H. inversion H as [| ? b ? bs' Hb Hrest]; subst.
      rewrite Hb. apply IH in Hrest. rewrite Hrest. reflexivity.
Qed.

Lemma comprehension_raise {A B} (f : A -> result B) (l : list A) (e : exn) :
  comprehension f l = Raise e -> exists a, In a l /\ f a = Raise e.
Proof.
  induction l as [| a l IH]; cbn [comprehension]; [discriminate |].
  destruct (f a) as [b | e'] eqn:Ea.
  - destruct (comprehension f l) as [bs | e'']; [discriminate |].
    intros [= <-]. destruct (IH eq_refl) as [a' [Hin Ha']].
    exists a'. split; [now right | exact Ha'].
  - intros [= <-]. exists a. split; [now left | exact Ea].
Qed.

Lemma comprehension_total {A B} (f : A -> result B) (l : list A) :
  (forall a, In a l -> exists b, f a = Ok b) ->
  exists bs, comprehension f l = Ok bs.
Proof.
  intros Hall.
  destruct (comprehension f l) as [bs | e] eqn:E; [now exists bs |].
  apply comprehension_raise in E. destruct E as [a [Hin Ha]].
  destruct (Hall a Hin) as [b Hb]. congruence.
Qed.

(** ** More on the CLI listing *)

Lemma cli_list_ok {W} (env : Env W) (st : state W) (l : list string) :
  fst (cli_list_all_bucket_names env st) = Ok l ->
  exists out,
    fst (run_mcg_cmd env "obc list" (world st)) = Ok out
    /\ parse_obc_list out = Ok l.
Proof.
  rewrite cli_list_result.
  destruct (fst (run_mcg_cmd env "obc list" (world st))) as [out | e];
    [| discriminate].
  intros H. exists out. split; [reflexivity | exact H].
Qed.

Lemma second_token_clean (row name : string) :
  list_item (str_split row) 1 = Ok name -> clean_name name.
Proof.
  unfold list_item.
  destruct (nth_error (str_split row) 1) as [x |] eqn:E; [| discriminate].
  intros [= <-]. apply nth_error_In in E.
  pose proof (split_ws_clean row "" eq_refl) as H.
  rewrite Forall_forall in H. now apply H.
Qed.

Lemma parse_obc_list_clean (out : string) (l : list string) :
  parse_obc_list out = Ok l -> Forall clean_name l.
Proof.
  unfold parse_obc_list. intros Hparse. apply comprehension_ok in Hparse.
  induction Hparse as [| row name rows names Hrow _ IH]; constructor.
  - eapply second_token_clean. exact Hrow.
  - exact IH.
Qed.

(** X1: every name the CLI listing returns is a non-empty string without
    whitespace. *)
Theorem cli_list_names_clean {W} (env : Env W) (st : state W) (l : list string) :
  fst (cli_list_all_bucket_names env st) = Ok l ->
  Forall clean_name l.
Proof.
  intros H. apply cli_list_ok in H. destruct H as [out [_ Hparse]].
  eapply parse_obc_list_clean. exact Hparse.
Qed.

Lemma cli_list_names_clean_witness :
  Forall clean_name ["---"; "mybucket-1"; "mybucket-2"].
Proof.
  apply (cli_list_names_clean script_env (started quiet_script)).
  reflexivity.
Defined.

(** X2: when the CLI listing returns, it returns one name for each line
    between the first newline and the last: as many names as the output
    has newlines, less one. *)
Theorem cli_list_length {W} (env : Env W) (st : state W) (l : list string) :
  fst (cli_list_all_bucket_names env st) = Ok l ->
  exists out,
    fst (run_mcg_cmd env "obc list" (world st)) = Ok out
    /\ length l = count_char "010"%char out - 1.
Proof.
  intros H. apply cli_list_ok in H. destruct H as [out [Hrun Hparse]].
  exists out. split; [exact Hrun |].
  unfold parse_obc_list in Hparse. apply comprehension_ok in Hparse.
  apply Forall2_length in Hparse. fold (obc_rows out) in Hparse.
  rewrite <- Hparse. apply obc_rows_length.
Qed.

Lemma cli_list_length_witness :
  exists out,
    fst (run_mcg_cmd script_env "obc list" (world (started quiet_script))) = Ok out
    /\ length ["---"; "mybucket-1"; "mybucket-2"] = count_char "010"%char out - 1.
Proof.
  apply (cli_list_length script_env (started quiet_script)).
  reflexivity.
Defined.

(** X3: on an output of the tool, the CLI listing returns a list exactly
    when every row between the first newline and the last has at least
    two whitespace-delimited tokens; otherwise it raises, and what it
    raises is [IndexError]. *)
Theorem cli_list_rows {W} (env : Env W) (st : state W) (out : string) (w' : W) :
  run_mcg_cmd env "obc list" (world st) = (Ok out, w') ->
  ((exists l, fst (cli_list_all_bucket_names env st) = Ok l) <->
   Forall (fun row => 2 <= length (str_split row)) (obc_rows out))
  /\ (forall e, fst (cli_list_all_bucket_names env st) = Raise e -> e = IndexError).
Proof.
  intros Hrun. rewrite cli_list_result, Hrun. cbn [fst bindR].
  unfold parse_obc_list. fold (obc_rows out). split; [split |].
  - intros [l Hl]. apply comprehension_ok in Hl.
    induction Hl as [| row name rows names Hrow _ IH]; constructor; [| exact IH].
    unfold list_item in Hrow.
    destruct (nth_error (str_split row) 1) eqn:E; [| discriminate].
    assert (Hlt : 1 < length (str_split row))
      by (apply nth_error_Some; congruence).
    lia.
  - intros Hall. apply comprehension_total. intros row Hin.
    rewrite Forall_forall in Hall. specialize (Hall row Hin).
    unfold list_item.
    destruct (nth_error (str_split row) 1) as [x |] eqn:E; [now exists x |].
    apply nth_error_None in E. lia.
  - intros e He. apply comprehension_raise in He.
    destruct He as [row [_ Hrow]]. unfold list_item in Hrow.
    destruct (nth_error (str_split row) 1); congruence.
Qed.

Lemma cli_list_rows_witness :
  exists l, fst (cli_list_all_bucket_names script_env (started quiet_script)) = Ok l.
Proof.
  apply (proj1 (cli_list_rows script_env (started quiet_script) sample_output
                  quiet_script eq_refl)).
  repeat constructor.
Defined.

Lemma cli_list_framed {W} (env : Env W) (st : state W) (h body t : string) (w' : W) :
  run_mcg_cmd env "obc list" (world st) = (Ok (h ++ nl ++ body ++ nl ++ t)%string, w') ->
  count_char "010"%char h = 0 ->
  count_char "010"%char t = 0 ->
  fst (cli_list_all_bucket_names env st)
  = comprehension (fun row => list_item (str_split row) 1) (split_on "010"%char body).
Proof.
  intros Hrun Hh Ht. rewrite cli_list_result, Hrun. cbn [fst bindR].
  unfold parse_obc_list. fold (obc_rows (h ++ nl ++ body ++ nl ++ t)).
  now rewrite obc_rows_framed.
Qed.

(** X4: the first line of the output and whatever follows its last newline
    are never read: two outputs that differ only there give the same
    result.  In particular a last row that is not ended by a newline is
    dropped. *)
Theorem cli_list_ignores_frame {W} (env : Env W) (st1 st2 : state W)
        (h1 t1 h2 t2 body : string) (w1 w2 : W) :
  run_mcg_cmd env "obc list" (world st1)
  = (Ok (h1 ++ nl ++ body ++ nl ++ t1)%string, w1) ->
  run_mcg_cmd env "obc list" (world st2)
  = (Ok (h2 ++ nl ++ body ++ nl ++ t2)%string, w2) ->
  count_char "010"%char h1 = 0 -> count_char "010"%char t1 = 0 ->
  count_char "010"%char h2 = 0 -> count_char "010"%char t2 = 0 ->
  fst (cli_list_all_bucket_names env st1) = fst (cli_list_all_bucket_names env st2).
Proof.
  intros H1 H2 Hh1 Ht1 Hh2 Ht2.
  rewrite (cli_list_framed env st1 h1 body t1 w1 H1 Hh1 Ht1).
  rewrite (cli_list_framed env st2 h2 body t2 w2 H2 Hh2 Ht2).
  reflexivity.
Qed.

(** The row "bar  mybucket-2" without its newline is lost. *)
Lemma cli_list_ignores_frame_witness :
  fst (cli_list_all_bucket_names script_env
         (started (with_cli (Ok ("NAME  BUCKET" ++ nl ++ "foo  mybucket-1" ++ nl
                                 ++ "bar  mybucket-2")%string) quiet_script)))
  = fst (cli_list_all_bucket_names script_env
           (started (with_cli (Ok ("" ++ nl ++ "foo  mybucket-1" ++ nl ++ "")%string)
                              quiet_script))).
Proof.
  eapply (cli_list_ignores_frame script_env _ _
            "NAME  BUCKET" "bar  mybucket-2" "" "" "foo  mybucket-1").
  - reflexivity.
  - reflexivity.
  - reflexivity.
  - reflexivity.
  - reflexivity.
  - reflexivity.
Defined.

(** X5: the CLI existence check never returns [True] for the empty name or
    for a name that holds whitespace, whatever the tool prints. *)
Theorem cli_verify_unclean_name {W} (env : Env W) (bucketname : string)
        (st : state W) :
  bucketname = "" \/ has_space bucketname = true ->
  fst (cli_verify_bucket_exists env bucketname st) <> Ok true.
Proof.
  intros Hbad Htrue. rewrite cli_verify_result in Htrue.
  destruct (fst (cli_list_all_bucket_names env st)) as [l | e] eqn:El;
    [| discriminate Htrue].
  cbn [bindR] in Htrue. injection Htrue as Hin. apply str_in_In in Hin.
  apply cli_list_ok in El. destruct El as [out [_ Hparse]].
  apply parse_obc_list_clean in Hparse. rewrite Forall_forall in Hparse.
  destruct (Hparse _ Hin) as [Hne Hsp].
  destruct Hbad as [-> | Hbad]; [now apply Hne | congruence].
Qed.

Lemma cli_verify_unclean_name_witness :
  fst (cli_verify_bucket_exists script_env "foo  mybucket-1" (started quiet_script))
  <> Ok true.
Proof.
  apply (cli_verify_unclean_name script_env "foo  mybucket-1" (started quiet_script)).
  right. reflexivity.
Defined.

(** ** More on the existence checks *)

Lemma prefix_spec (sub s : string) :
  String.prefix sub s = true <-> exists post, s = (sub ++ post)%string.
Proof.
  revert s. induction sub as [| a sub IH]; intros s.
  - destruct s; cbn; (split; [intros _; eexists; reflexivity | reflexivity]).
  - destruct s as [| b s]; cbn [String.prefix append].
    + split; [discriminate | intros [post H]; discriminate H].
    + destruct (Ascii.ascii_dec a b) as [<- | Hab].
      * rewrite IH. split.
        -- intros [post ->]. now exists post.
        -- intros [post [= ->]]. now exists post.
      * split; [discriminate |].
        intros [post [= <- _]]. now contradiction Hab.
Qed.

(** [sub in s] holds exactly when [s] is [sub] between two strings. *)
Lemma str_contains_spec (sub s : string) :
  str_contains sub s = true <->
  exists pre post, s = (pre ++ sub ++ post)%string.
Proof.
  split.
  - induction s as [| c s IH]; cbn [str_contains]; intros H;
      apply orb_true_iff in H as [H | H].
    + apply prefix_spec in H. destruct H as [post ->]. now exists "", post.
    + discriminate H.
    + apply prefix_spec in H. destruct H as [post ->]. now exists "", post.
    + destruct (IH H) as [pre [post ->]]. now exists (String c pre), post.
  - intros [pre [post ->]]. induction pre as [| c pre IH].
    + cbn [append].
      assert (Hp : String.prefix sub (sub ++ post) = true)
        by (apply prefix_spec; now exists post).
      destruct (sub ++ post)%string; cbn [str_contains]; now rewrite Hp.
    + cbn [append str_contains]. rewrite IH. apply orb_true_r.
Qed.

(** X6: the resource-API existence check returns [False] exactly when the
    fetch of the claim raises a [CommandFailed] whose [repr] holds the
    text "NotFound" somewhere, with that capitalisation. *)
Theorem oc_verify_false_iff {W} (env : Env W) (bucketname : string) (st : state W) :
  fst (oc_verify_bucket_exists env bucketname st) = Ok false <->
  exists pre post,
    fst (ocp_get env {| ocp_kind := "obc"; ocp_namespace := namespace (self st) |}
                 (Some (VStr bucketname)) (world st))
    = Raise (CommandFailed (pre ++ "NotFound" ++ post)%string).
Proof.
  rewrite oc_verify_result.
  destruct (fst (ocp_get env _ (Some (VStr bucketname)) (world st))) as [v | e].
  - split; [discriminate | intros [pre [post H]]; discriminate H].
  - destruct e;
      try (split; [discriminate | intros [pre [post H]]; discriminate H]).
    destruct (str_contains "NotFound" repr) eqn:E.
    + apply str_contains_spec in E. destruct E as [pre [post ->]].
      split; [intros _; now exists pre, post | reflexivity].
    + split; [discriminate |].
      intros [pre [post [= ->]]].
      assert (str_contains "NotFound" (pre ++ "NotFound" ++ post) = true)
        by (apply str_contains_spec; now exists pre, post).
      cbn [append] in H. congruence.
Qed.

(** X7: the protocol-path existence check never raises a [ClientError],
    whatever its error code and whatever state it runs in. *)
Theorem s3_verify_never_client_error {W} (env : Env W) (bucketname : string)
        (st : state W) (code : string) :
  fst (s3_verify_bucket_exists env bucketname st) <> Raise (ClientError code).
Proof.
  unfold s3_verify_bucket_exists, try_except, bind, the_s3_resource, bind,
    get_self, extern, ret, raise.
  destruct (s3_resource (self st)) as [r |]; cbn; [| discriminate].
  destruct (head_bucket env r bucketname (world st)) as [[u | e] w']; cbn;
    [discriminate |].
  destruct e; discriminate.
Qed.

(** X8: each listing and each existence check makes one call, to its own
    transport, whether it returns or raises: the CLI operations run
    [obc list], the resource-API operations fetch claims in the namespace
    of the instance, and the protocol operations go to the S3 resource of
    the instance. *)
Theorem one_call_per_operation {W} (env : Env W) (bucketname : string)
        (st : state W) :
  calls (snd (cli_list_all_bucket_names env st)) = calls st ++ [CallMcgCmd "obc list"]
  /\ calls (snd (cli_verify_bucket_exists env bucketname st))
     = calls st ++ [CallMcgCmd "obc list"]
  /\ calls (snd (oc_list_all_bucket_names env st))
     = calls st ++ [CallOcpGet {| ocp_kind := "obc";
                                  ocp_namespace := namespace (self st) |} None]
  /\ calls (snd (oc_verify_bucket_exists env bucketname st))
     = calls st ++ [CallOcpGet {| ocp_kind := "obc";
                                  ocp_namespace := namespace (self st) |}
                               (Some (VStr bucketname))]
  /\ (forall r, s3_resource (self st) = Some r ->
                calls (snd (s3_list_all_bucket_names env st))
                = calls st ++ [CallBucketsAll r]
                /\ calls (snd (s3_verify_bucket_exists env bucketname st))
                   = calls st ++ [CallHeadBucket r bucketname]).
Proof.
  repeat split.
  - unfold cli_list_all_bucket_names, bind, extern, lift.
    destruct (run_mcg_cmd env "obc list" (world st)) as [[out | e] w']; reflexivity.
  - unfold cli_verify_bucket_exists, cli_list_all_bucket_names, bind, extern, lift, ret.
    destruct (run_mcg_cmd env "obc list" (world st)) as [[out | e] w'];
      [| reflexivity].
    cbn. destruct (parse_obc_list out); reflexivity.
  - unfold oc_list_all_bucket_names, OCP_get, bind, extern, lift, get_self.
    cbn [self world calls].
    destruct (ocp_get env _ None (world st)) as [[v | e] w']; [| reflexivity].
    destruct (py_get "items" v) as [items | e]; [| reflexivity].
    destruct (py_iter items) as [rows | e]; [| reflexivity].
    destruct (comprehension _ rows); reflexivity.
  - unfold oc_verify_bucket_exists, try_except, OCP_get, bind, extern, get_self, ret.
    cbn [self world calls].
    destruct (ocp_get env _ (Some (VStr bucketname)) (world st)) as [[v | e] w'];
      [reflexivity |].
    destruct e; try reflexivity.
    destruct (str_contains "NotFound" repr); reflexivity.
  - unfold s3_list_all_bucket_names, the_s3_resource, bind, extern, get_self, ret.
    rewrite H. cbn [self world calls].
    destruct (buckets_all env r (world st)) as [[l | e] w']; reflexivity.
  - unfold s3_verify_bucket_exists, try_except, the_s3_resource, bind, extern,
      get_self, ret.
    rewrite H. cbn [self world calls].
    destruct (head_bucket env r bucketname (world st)) as [[u | e] w'];
      [reflexivity |].
    destruct e; reflexivity.
Qed.

(** ** More on construction *)

Lemma secret_field_decoded {W} (env : Env W) (secret : value) (k : string) (v : value) :
  secret_field env secret k = Ok v ->
  exists enc dec,
    (py_get "data" secret >>= py_get k)%res = Ok (VStr enc)
    /\ b64decode_utf8 env enc = Ok dec
    /\ v = VStr dec.
Proof.
  unfold secret_field.
  destruct (bindR (py_get "data" secret) (py_get k)) as [x | e]; cbn [bindR];
    [| discriminate].
  destruct x as [| enc | | |]; cbn [b64decode]; try discriminate.
  destruct (b64decode_utf8 env enc) as [dec | e] eqn:Ed; cbn [bindR];
    [| discriminate].
  intros [= <-]. now exists enc, dec.
Qed.

(** What a successful [MCG()] went through and the instance it gives. *)
Lemma new_MCG_instance {W} (env : Env W) (w : W) (log : list call)
      (o : MCG) (w' : W) (log' : list call) :
  new_MCG env w log = (Ok o, (w', log')) ->
  exists ns results w1 s3 mgmt reg name secret k1 k2 u p r,
    dict_subscript (ENV_DATA env) "cluster_namespace" = Ok ns
    /\ ocp_get env {| ocp_kind := "noobaa"; ocp_namespace := ns |} None w
       = (Ok results, w1)
    /\ external_dns "serviceS3" results = Ok (VStr s3)
    /\ external_dns "serviceMgmt" results = Ok mgmt
    /\ nth_error (split_on "." s3) 1 = Some reg
    /\ secret_ref_name results = Ok name
    /\ ocp_get env {| ocp_kind := "secret"; ocp_namespace := ns |} (Some name) w1
       = (Ok secret, w')
    /\ secret_field env secret "AWS_ACCESS_KEY_ID" = Ok k1
    /\ secret_field env secret "AWS_SECRET_ACCESS_KEY" = Ok k2
    /\ secret_field env secret "email" = Ok u
    /\ secret_field env secret "password" = Ok p
    /\ boto3_resource env (VStr s3) k1 k2 = Ok r
    /\ o = {| s3_resource := Some r; s3_endpoint := VStr s3; ocp_resource := VNone;
              mgmt_endpoint := mgmt; region := VStr reg; access_key_id := k1;
              access_key := k2; namespace := ns; noobaa_user := u;
              noobaa_password := p;
              _ocp_resource := Some {| ocp_kind := "noobaa"; ocp_namespace := ns |} |}.
Proof.
  unfold new_MCG, __init__, bind, lift, set_attr, get_self, OCP_get, extern.
  intros H. mcg_simpl H.
  destruct (dict_subscript (ENV_DATA env) "cluster_namespace") as [ns | e] eqn:Ens;
    [| discriminate H].
  destruct (ocp_get env {| ocp_kind := "noobaa"; ocp_namespace := ns |} None w)
    as [[results | e] w1] eqn:Eres; [| discriminate H].
  mcg_simpl H.
  fold (external_dns "serviceS3" results) in H.
  fold (external_dns "serviceMgmt" results) in H.
  destruct (external_dns "serviceS3" results) as [s3v | e] eqn:Es3; [| discriminate H].
  destruct (external_dns "serviceMgmt" results) as [mgmt | e] eqn:Emgmt;
    [| discriminate H].
  mcg_simpl H.
  destruct s3v as [| s3 | | |]; cbn [py_split bindR] in H; try discriminate H.
  unfold list_item in H.
  destruct (nth_error (split_on "." s3) 1) as [reg |] eqn:Ereg; [| discriminate H].
  fold (secret_ref_name results) in H.
  destruct (secret_ref_name results) as [name | e] eqn:Ename; [| discriminate H].
  mcg_simpl H.
  destruct (ocp_get env {| ocp_kind := "secret"; ocp_namespace := ns |} (Some name) w1)
    as [[secret | e] w2] eqn:Esec; [| discriminate H].
  destruct (secret_field env secret "AWS_ACCESS_KEY_ID") as [k1 | e] eqn:E1;
    [| discriminate H].
  destruct (secret_field env secret "AWS_SECRET_ACCESS_KEY") as [k2 | e] eqn:E2;
    [| discriminate H].
  destruct (secret_field env secret "email") as [u | e] eqn:E3; [| discriminate H].
  destruct (secret_field env secret "password") as [p | e] eqn:E4; [| discriminate H].
  mcg_simpl H.
  destruct (boto3_resource env (VStr s3) k1 k2) as [r | e] eqn:Er; [| discriminate H].
  mcg_simpl H. injection H as Ho Hw Hlog. subst w'.
  exists ns, results, w1, s3, mgmt, reg, name, secret, k1, k2, u, p, r.
  repeat split; try assumption; try reflexivity.
  now rewrite <- Ho.
Qed.

Lemma nth_error_Forall {A} (P : A -> Prop) (l : list A) (i : nat) (a : A) :
  Forall P l -> nth_error l i = Some a -> P a.
Proof.
  intros HP Hi. rewrite Forall_forall in HP. apply HP.
  eapply nth_error_In. exact Hi.
Qed.

(** X9: on the instance a successful [MCG()] gives, the S3 endpoint is a
    string, the region is the second of the pieces the dots cut it into
    and holds no dot, and the namespace is the one of the configuration. *)
Theorem new_MCG_region {W} (env : Env W) (w : W) (log : list call)
        (o : MCG) (w' : W) (log' : list call) :
  new_MCG env w log = (Ok o, (w', log')) ->
  dict_subscript (ENV_DATA env) "cluster_namespace" = Ok (namespace o)
  /\ exists s3 reg,
      s3_endpoint o = VStr s3
      /\ region o = VStr reg
      /\ nth_error (split_on "." s3) 1 = Some reg
      /\ count_char "." reg = 0
      /\ 1 <= count_char "." s3.
Proof.
  intros H. apply new_MCG_instance in H.
  destruct H as (ns & results & w1 & s3 & mgmt & reg & name & secret & k1 & k2 & u
                 & p & r & Hns & _ & _ & _ & Hreg & _ & _ & _ & _ & _ & _ & _ & ->).
  cbn. split; [exact Hns |].
  exists s3, reg. repeat split; try assumption.
  - eapply (nth_error_Forall _ _ _ _ (split_on_pieces "." s3)). exact Hreg.
  - assert (Hlt : 1 < length (split_on "." s3))
      by (apply nth_error_Some; congruence).
    rewrite split_on_length in Hlt. lia.
Qed.

Lemma new_MCG_region_witness :
  dict_subscript (ENV_DATA script_env) "cluster_namespace" = Ok (namespace built)
  /\ exists s3 reg,
      s3_endpoint built = VStr s3
      /\ region built = VStr reg
      /\ nth_error (split_on "." s3) 1 = Some reg
      /\ count_char "." reg = 0
      /\ 1 <= count_char "." s3.
Proof.
  apply (new_MCG_region script_env quiet_script [] built quiet_script
           [fetch_noobaa (VStr "openshift-storage");
            fetch_secret (VStr "openshift-storage") (VStr "noobaa-admin")]).
  reflexivity.
Defined.

(** X10: on the instance a successful [MCG()] gives, the four credentials
    are strings, each the decoding of its field of the secret that was
    fetched; the S3 resource is the one [boto3.resource] builds from the
    S3 endpoint, the key id and the key; the OCP object is kept under
    [_ocp_resource], and the class attribute [ocp_resource] is still
    [None]. *)
Theorem new_MCG_credentials {W} (env : Env W) (w : W) (log : list call)
        (o : MCG) (w' : W) (log' : list call) :
  new_MCG env w log = (Ok o, (w', log')) ->
  (exists name secret w1,
      ocp_get env {| ocp_kind := "secret"; ocp_namespace := namespace o |}
              (Some name) w1 = (Ok secret, w')
      /\ decodes_to env secret "AWS_ACCESS_KEY_ID" (access_key_id o)
      /\ decodes_to env secret "AWS_SECRET_ACCESS_KEY" (access_key o)
      /\ decodes_to env secret "email" (noobaa_user o)
      /\ decodes_to env secret "password" (noobaa_password o))
  /\ (exists r,
         s3_resource o = Some r
         /\ boto3_resource env (s3_endpoint o) (access_key_id o) (access_key o) = Ok r)
  /\ _ocp_resource o = Some {| ocp_kind := "noobaa"; ocp_namespace := namespace o |}
  /\ ocp_resource o = VNone.
Proof.
  intros H. apply new_MCG_instance in H.
  destruct H as (ns & results & w1 & s3 & mgmt & reg & name & secret & k1 & k2 & u
                 & p & r & _ & _ & _ & _ & _ & _ & Hsec & H1 & H2 & H3 & H4 & Hr & ->).
  split; [| split; [| split; reflexivity]].
  - exists name, secret, w1.
    split; [exact Hsec |].
    split; [exact (secret_field_decoded env secret _ _ H1) |].
    split; [exact (secret_field_decoded env secret _ _ H2) |].
    split; [exact (secret_field_decoded env secret _ _ H3) |].
    exact (secret_field_decoded env secret _ _ H4).
  - exists r. split; [reflexivity | exact Hr].
Qed.

Lemma new_MCG_credentials_witness :
  access_key_id built = VStr "AKIA123"
  /\ access_key built = VStr "s3cr3t"
  /\ noobaa_user built = VStr "admin@noobaa.io"
  /\ noobaa_password built = VStr "pass"
  /\ ocp_resource built = VNone.
Proof.
  pose proof (new_MCG_credentials script_env quiet_script [] built quiet_script
                [fetch_noobaa (VStr "openshift-storage");
                 fetch_secret (VStr "openshift-storage") (VStr "noobaa-admin")]
                eq_refl) as H.
  destruct H as (_ & _ & _ & Hnone).
  do 4 (split; [reflexivity |]). exact Hnone.
Defined.

Ltac mcg_simpl_goal :=
  cbn [self world calls fst snd
       s3_resource s3_endpoint ocp_resource mgmt_endpoint region access_key_id
       access_key namespace noobaa_user noobaa_password _ocp_resource
       set_s3_resource set_s3_endpoint set_mgmt_endpoint set_region
       set_access_key_id set_access_key set_namespace set_noobaa_user
       set_noobaa_password set__ocp_resource class_attributes].

Ltac close_calls :=
  mcg_simpl_goal;
  first
    [ exists []; split; [now rewrite app_nil_r | now left]
    | eexists [_]; split;
      [reflexivity | right; left; eexists; reflexivity]
    | eexists [_; _]; split;
      [now rewrite <- app_assoc | right; right; do 2 eexists; reflexivity] ].

(** X11: whether it returns or raises, [MCG()] makes no call but its two
    fetches, in their order: nothing, or the fetch of the gateway
    resource, or that fetch followed by the fetch of the secret. *)
Theorem new_MCG_calls {W} (env : Env W) (w : W) (log : list call) :
  exists new,
    snd (snd (new_MCG env w log)) = log ++ new
    /\ (new = []
        \/ (exists ns, new = [fetch_noobaa ns])
        \/ (exists ns name, new = [fetch_noobaa ns; fetch_secret ns name])).
Proof.
  unfold fetch_noobaa, fetch_secret.
  unfold new_MCG, __init__, bind, lift, set_attr, get_self, OCP_get, extern.
  mcg_simpl_goal.
  destruct (dict_subscript (ENV_DATA env) "cluster_namespace") as [ns | e];
    [| close_calls].
  destruct (ocp_get env {| ocp_kind := "noobaa"; ocp_namespace := ns |} None w)
    as [[results | e] w1]; [| close_calls].
  mcg_simpl_goal.
  fold (external_dns "serviceS3" results).
  fold (external_dns "serviceMgmt" results).
  destruct (external_dns "serviceS3" results) as [s3v | e]; [| close_calls].
  destruct (external_dns "serviceMgmt" results) as [mgmt | e]; [| close_calls].
  mcg_simpl_goal.
  destruct (bindR (py_split "." s3v) _) as [reg | e]; [| close_calls].
  fold (secret_ref_name results).
  destruct (secret_ref_name results) as [name | e]; [| close_calls].
  mcg_simpl_goal.
  destruct (ocp_get env {| ocp_kind := "secret"; ocp_namespace := ns |} (Some name) w1)
    as [[secret | e] w2]; [| close_calls].
  destruct (secret_field env secret "AWS_ACCESS_KEY_ID"); [| close_calls].
  destruct (secret_field env secret "AWS_SECRET_ACCESS_KEY"); [| close_calls].
  destruct (secret_field env secret "email"); [| close_calls].
  destruct (secret_field env secret "password"); [| close_calls].
  mcg_simpl_goal.
  destruct (boto3_resource env _ _ _); close_calls.
Qed.

(** X12: the early failures of [MCG()].  Without the key
    [cluster_namespace] in the configuration it raises [KeyError] and
    calls nothing.  When the fetch of the gateway resource raises, that
    exception is what [MCG()] raises.  When the fetch returns an empty
    list of items, [MCG()] raises [IndexError].  In the last two cases
    the secret is not fetched. *)
Theorem new_MCG_early_failures {W} (env : Env W) (w : W) (log : list call) :
  (assoc "cluster_namespace" (ENV_DATA env) = None ->
   new_MCG env w log = (Raise (KeyError (VStr "cluster_namespace")), (w, log)))
  /\ (forall ns e w1,
         dict_subscript (ENV_DATA env) "cluster_namespace" = Ok ns ->
         ocp_get env {| ocp_kind := "noobaa"; ocp_namespace := ns |} None w
         = (Raise e, w1) ->
         new_MCG env w log = (Raise e, (w1, log ++ [fetch_noobaa ns])))
  /\ (forall ns results w1,
         dict_subscript (ENV_DATA env) "cluster_namespace" = Ok ns ->
         ocp_get env {| ocp_kind := "noobaa"; ocp_namespace := ns |} None w
         = (Ok results, w1) ->
         py_get "items" results = Ok (VList []) ->
         new_MCG env w log = (Raise IndexError, (w1, log ++ [fetch_noobaa ns]))).
Proof.
  unfold fetch_noobaa.
  split; [| split].
  - intros Hnone.
    unfold new_MCG, __init__, bind, lift, dict_subscript. rewrite Hnone. reflexivity.
  - intros ns e w1 Hns Hres.
    unfold new_MCG, __init__, bind, lift, set_attr, get_self, OCP_get, extern.
    rewrite Hns. mcg_simpl_goal. rewrite Hres. reflexivity.
  - intros ns results w1 Hns Hres Hitems.
    unfold new_MCG, __init__, bind, lift, set_attr, get_self, OCP_get, extern.
    rewrite Hns. mcg_simpl_goal. rewrite Hres. mcg_simpl_goal.
    rewrite Hitems. reflexivity.
Qed.

Lemma new_MCG_early_failures_witness :
  new_MCG script_env (with_noobaa (Ok (VDict [("items", VList [])])) quiet_script) []
  = (Raise IndexError,
     (with_noobaa (Ok (VDict [("items", VList [])])) quiet_script,
      [fetch_noobaa (VStr "openshift-storage")])).
Proof.
  apply (proj2 (proj2 (new_MCG_early_failures script_env
                         (with_noobaa (Ok (VDict [("items", VList [])])) quiet_script)
                         []))
               (VStr "openshift-storage") (VDict [("items", VList [])])).
  - reflexivity.
  - reflexivity.
  - reflexivity.
Defined.

(** X13: [MCG()] reads the four fields of the secret in the order
    AWS_ACCESS_KEY_ID, AWS_SECRET_ACCESS_KEY, email, password.  When the
    endpoints and the region were read and the secret was fetched, and
    [k] is the first field that the [data] of the secret does not hold
    (the ones before it decode), [MCG()] raises [TypeError], after its two
    fetches. *)
Theorem new_MCG_missing_field {W} (env : Env W) (w : W) (log : list call)
        (ns results : value) (w1 : W) (s3 : string) (mgmt : value) (reg : string)
        (name secret : value) (w2 : W) (before after : list string) (k : string) :
  dict_subscript (ENV_DATA env) "cluster_namespace" = Ok ns ->
  ocp_get env {| ocp_kind := "noobaa"; ocp_namespace := ns |} None w
  = (Ok results, w1) ->
  external_dns "serviceS3" results = Ok (VStr s3) ->
  external_dns "serviceMgmt" results = Ok mgmt ->
  nth_error (split_on "." s3) 1 = Some reg ->
  secret_ref_name results = Ok name ->
  ocp_get env {| ocp_kind := "secret"; ocp_namespace := ns |} (Some name) w1
  = (Ok secret, w2) ->
  required_fields = before ++ k :: after ->
  Forall (fun k' => exists v, secret_field env secret k' = Ok v) before ->
  (py_get "data" secret >>= py_get k)%res = Ok VNone ->
  new_MCG env w log
  = (Raise TypeError, (w2, log ++ [fetch_noobaa ns; fetch_secret ns name])).
Proof.
  intros Hns Hres Hs3 Hmgmt Hreg Hname Hsec Hsplit Hbefore Hmiss.
  assert (Hk : secret_field env secret k = Raise TypeError)
    by (unfold secret_field; rewrite Hmiss; reflexivity).
  unfold fetch_noobaa, fetch_secret.
  unfold new_MCG, __init__, bind, lift, set_attr, get_self, OCP_get, extern.
  rewrite Hns. mcg_simpl_goal. rewrite Hres. mcg_simpl_goal.
  fold (external_dns "serviceS3" results).
  fold (external_dns "serviceMgmt" results).
  rewrite Hs3, Hmgmt. mcg_simpl_goal.
  cbn [py_split bindR]. unfold list_item. rewrite Hreg.
  fold (secret_ref_name results). rewrite Hname. mcg_simpl_goal.
  rewrite Hsec. mcg_simpl_goal.
  unfold required_fields in Hsplit.
  destruct before as [| f1 before].
  { injection Hsplit as <- _. rewrite Hk. now rewrite <- app_assoc. }
  inversion Hbefore as [| ? ? [v1 H1] Hbefore1]; subst.
  injection Hsplit as <- Hsplit. rewrite H1. mcg_simpl_goal.
  destruct before as [| f2 before].
  { injection Hsplit as <- _. rewrite Hk. now rewrite <- app_assoc. }
  inversion Hbefore1 as [| ? ? [v2 H2] Hbefore2]; subst.
  injection Hsplit as <- Hsplit. rewrite H2. mcg_simpl_goal.
  destruct before as [| f3 before].
  { injection Hsplit as <- _. rewrite Hk. now rewrite <- app_assoc. }
  inversion Hbefore2 as [| ? ? [v3 H3] Hbefore3]; subst.
  injection Hsplit as <- Hsplit. rewrite H3. mcg_simpl_goal.
  destruct before as [| f4 before].
  { injection Hsplit as <- _. rewrite Hk. now rewrite <- app_assoc. }
  destruct before; discriminate Hsplit.
Qed.

(** The secret without its password: the first three fields decode. *)
Lemma new_MCG_missing_field_witness :
  new_MCG script_env (with_secret (Ok secret_without_password) quiet_script) []
  = (Raise TypeError,
     (with_secret (Ok secret_without_password) quiet_script,
      [] ++ [fetch_noobaa (VStr "openshift-storage");
             fetch_secret (VStr "openshift-storage") (VStr "noobaa-admin")])).
Proof.
  apply (new_MCG_missing_field script_env
           (with_secret (Ok secret_without_password) quiet_script) []
           (VStr "openshift-storage") noobaa_cr
           (with_secret (Ok secret_without_password) quiet_script)
           "https://s3.us-east-2.example.com"
           (VStr "https://mgmt.us-east-2.example.com") "us-east-2"
           (VStr "noobaa-admin") secret_without_password
           (with_secret (Ok secret_without_password) quiet_script)
           ["AWS_ACCESS_KEY_ID"; "AWS_SECRET_ACCESS_KEY"; "email"] [] "password").
  - reflexivity.
  - reflexivity.
  - reflexivity.
  - reflexivity.
  - reflexivity.
  - reflexivity.
  - reflexivity.
  - reflexivity.
  - repeat constructor; eexists; reflexivity.
  - reflexivity.
Defined.

(** ** The resource-API listing *)

Lemma oc_list_result {W} (env : Env W) (st : state W) :
  fst (oc_list_all_bucket_names env st) =
  (fst (ocp_get env {| ocp_kind := "obc"; ocp_namespace := namespace (self st) |}
                None (world st))
   >>= py_get "items" >>= py_iter >>= comprehension claim_bucket_name)%res.
Proof.
  unfold oc_list_all_bucket_names, OCP_get, bind, extern, lift, get_self.
  cbn [self world calls].
  destruct (ocp_get env _ None (world st)) as [[v | e] w']; [| reflexivity].
  cbn [fst bindR].
  destruct (py_get "items" v) as [items | e]; [| reflexivity].
  cbn [bindR].
  destruct (py_iter items) as [rows | e]; reflexivity.
Qed.

Lemma Forall2_In_left {A B} (R : A -> B -> Prop) (l : list A) (l' : list B) (a : A) :
  Forall2 R l l' -> In a l -> exists b, R a b.
Proof.
  induction 1 as [| x y l l' Hxy _ IH]; intros Hin; [contradiction |].
  destruct Hin as [<- | Hin]; [now exists y | now apply IH].
Qed.

(** X14: when the fetch of the claims answers with a list of items, the
    resource-API listing returns, claim by claim and in their order, what
    [spec.bucketName] holds, which is [None] for a claim whose spec has no
    bucket name; a claim without [spec] makes it raise; and an answer
    without [items] makes it raise [TypeError]. *)
Theorem oc_list_claims {W} (env : Env W) (st : state W) (r : value) (w' : W) :
  ocp_get env {| ocp_kind := "obc"; ocp_namespace := namespace (self st) |}
          None (world st) = (Ok r, w') ->
  (forall rows,
      py_get "items" r = Ok (VList rows) ->
      (forall l, fst (oc_list_all_bucket_names env st) = Ok l <->
                 Forall2 (fun claim v => claim_bucket_name claim = Ok v) rows l)
      /\ (forall claim,
             In claim rows -> py_get "spec" claim = Ok VNone ->
             exists e, fst (oc_list_all_bucket_names env st) = Raise e))
  /\ (py_get "items" r = Ok VNone ->
      fst (oc_list_all_bucket_names env st) = Raise TypeError).
Proof.
  intros Hget. rewrite oc_list_result, Hget. cbn [fst bindR]. split.
  - intros rows Hitems. rewrite Hitems. cbn [bindR py_iter]. split.
    + intros l. apply comprehension_ok.
    + intros claim Hin Hspec.
      destruct (comprehension claim_bucket_name rows) as [l | e] eqn:E;
        [| now exists e].
      apply comprehension_ok in E.
      destruct (Forall2_In_left _ _ _ claim E Hin) as [v Hv].
      unfold claim_bucket_name in Hv. rewrite Hspec in Hv. discriminate Hv.
  - intros Hitems. rewrite Hitems. reflexivity.
Qed.

Lemma oc_list_claims_witness :
  fst (oc_list_all_bucket_names script_env (started (with_obc (Ok two_claims) quiet_script)))
  = Ok [VStr "mybucket-1"; VNone].
Proof.
  apply (proj1 (proj1 (oc_list_claims script_env
                         (started (with_obc (Ok two_claims) quiet_script))
                         two_claims (with_obc (Ok two_claims) quiet_script) eq_refl)
                      _ eq_refl)).
  repeat constructor.
Defined.

(** ** The posts of the reduction check *)

Section Posts.
Context {W : Type} (env : Env W).

Lemma create_auth_ok (st st1 : state W) (url tok : value) :
  create_auth env st = (Ok (url, tok), st1) ->
  exists mg resp,
    mgmt_endpoint (self st) = VStr mg
    /\ url = VStr (mg ++ "/rpc")
    /\ requests_post env url (auth_payload (self st)) (world st) = (Ok resp, world st1)
    /\ (py_get "reply" resp >>= py_get "token")%res = Ok tok
    /\ self st1 = self st
    /\ calls st1 = calls st ++ [auth_post url (self st)].
Proof.
  unfold create_auth, bind, get_self, lift, extern, ret, auth_post.
  destruct (mgmt_endpoint (self st)) as [| mg | | |]; cbn [py_add_str];
    try discriminate.
  destruct (requests_post env (VStr (mg ++ "/rpc")) (auth_payload (self st)) (world st))
    as [[resp | e] w1] eqn:Epost; cbn [self world calls]; [| discriminate].
  destruct (bindR (py_get "reply" resp) (py_get "token")) as [t | e] eqn:Etok;
    [| discriminate].
  intros [= <- <- <-]. exists mg, resp. cbn [self world calls].
  repeat split; assumption.
Qed.

Lemma create_auth_calls (st : state W) (mg : string) :
  mgmt_endpoint (self st) = VStr mg ->
  calls (snd (create_auth env st))
  = calls st ++ [auth_post (VStr (mg ++ "/rpc")) (self st)]
  /\ world (snd (create_auth env st))
     = snd (requests_post env (VStr (mg ++ "/rpc")) (auth_payload (self st)) (world st)).
Proof.
  intros Hmg.
  unfold create_auth, bind, get_self, lift, extern, ret, auth_post.
  rewrite Hmg. cbn [py_add_str].
  destruct (requests_post env (VStr (mg ++ "/rpc")) (auth_payload (self st)) (world st))
    as [[resp | e] w1]; cbn [self world calls snd]; [| split; reflexivity].
  destruct (bindR (py_get "reply" resp) (py_get "token")); split; reflexivity.
Qed.

Context (url : value) (bucketname : string) (tok : value).

Lemma check_reduction_posts (st : state W) :
  exists n,
    calls (snd (_check_reduction env url bucketname tok st))
    = calls st ++ repeat (read_post url bucketname tok) n
    /\ 1 <= n <= 2
    /\ (forall p st', _check_reduction env url bucketname tok st = (Ok p, st') ->
                      n = 2).
Proof.
  unfold _check_reduction, bind, extern, lift, ret, read_post.
  destruct (requests_post env url (read_bucket_payload bucketname tok) (world st))
    as [[r1 | e] w1]; cbn [self world calls snd].
  2: { exists 1. split; [reflexivity | split; [lia | discriminate]]. }
  destruct (bindR (bindR (py_get "reply" r1) (py_get "data")) (py_get "size"))
    as [v1 | e].
  2: { exists 1. split; [reflexivity | split; [lia | discriminate]]. }
  destruct (requests_post env url (read_bucket_payload bucketname tok) w1)
    as [[r2 | e] w2]; cbn [self world calls snd].
  2: { exists 2. split; [now rewrite <- app_assoc | split; [lia | reflexivity]]. }
  destruct (bindR (bindR (py_get "reply" r2) (py_get "data")) (py_get "size_reduced"));
    exists 2; (split; [now rewrite <- app_assoc | split; [lia | reflexivity]]).
Qed.

Lemma for_samples_posts :
  forall polls bound st,
  exists n,
    calls (snd (for_samples (_check_reduction env url bucketname tok) polls bound st))
    = calls st ++ repeat (read_post url bucketname tok) n
    /\ n <= 2 * polls
    /\ (0 < polls -> 1 <= n).
Proof.
  induction polls as [| polls IH]; intros bound st.
  - exists 0. cbn. rewrite app_nil_r. split; [reflexivity | split; lia].
  - cbn [for_samples].
    destruct (check_reduction_posts st) as (n1 & Hc1 & Hn1 & Hok).
    destruct (_check_reduction env url bucketname tok st)
      as [[[total_size total_reduced] | e] st1] eqn:Ec; cbn [snd] in Hc1 |- *.
    + specialize (Hok _ _ eq_refl). subst n1.
      destruct (py_sub total_size total_reduced) as [d | e]; cbn [snd].
      2: { exists 2. split; [exact Hc1 | split; lia]. }
      destruct (d >? 80000000)%Z; cbn [snd].
      { exists 2. split; [exact Hc1 | split; lia]. }
      destruct (IH (Some (total_size, total_reduced)) st1) as (n2 & Hc2 & Hn2 & _).
      exists (2 + n2). rewrite Hc2, Hc1, repeat_app, app_assoc.
      split; [reflexivity | split; lia].
    + exists n1. split; [exact Hc1 | split; lia].
Qed.

Lemma try_for_samples_posts (polls : nat) (st : state W) :
  exists n,
    calls (snd (try_for_samples (_check_reduction env url bucketname tok) polls st))
    = calls st ++ repeat (read_post url bucketname tok) n
    /\ n <= 2 * polls
    /\ (0 < polls -> 1 <= n).
Proof.
  destruct (for_samples_posts polls None st) as (n & Hc & Hn).
  exists n. unfold try_for_samples.
  destruct (for_samples _ polls None st) as [[r bound] st1]. cbn [snd] in Hc |- *.
  split; [| exact Hn].
  destruct r as [b | e]; [exact Hc |].
  destruct e; try exact Hc.
  destruct bound as [[total_size total_reduced] |]; [| exact Hc].
  destruct (py_sub total_size total_reduced); exact Hc.
Qed.


End Posts.

(** X15: [check_data_reduction] posts to one address only, the management
    endpoint followed by "/rpc": first the [create_auth] request, then
    [read_bucket] requests that all name the given bucket and carry the
    same token, at most two for each sample the sampler grants.  When the
    management endpoint is not a string it raises [TypeError] and posts
    nothing. *)
Theorem check_data_reduction_posts {W} (env : Env W) (bucketname : string)
        (st : state W) :
  (forall mg,
      mgmt_endpoint (self st) = VStr mg ->
      exists tok n,
        calls (snd (check_data_reduction env bucketname st))
        = calls st ++ auth_post (VStr (mg ++ "/rpc")) (self st)
                   :: repeat (read_post (VStr (mg ++ "/rpc")) bucketname tok) n
        /\ n <= 2 * sampler_polls env 120 5
                     (snd (requests_post env (VStr (mg ++ "/rpc"))
                                         (auth_payload (self st)) (world st))))
  /\ ((forall mg, mgmt_endpoint (self st) <> VStr mg) ->
      check_data_reduction env bucketname st = (Raise TypeError, st)).
Proof.
  split.
  - intros mg Hmg. rewrite check_data_reduction_unfold.
    destruct (create_auth_calls env st mg Hmg) as [Hcalls Hworld].
    destruct (create_auth env st) as [[[url tok] | e] st1] eqn:Eauth;
      cbn [snd fst] in *.
    + apply create_auth_ok in Eauth.
      destruct Eauth as (mg' & resp & Hmg' & -> & _).
      assert (mg' = mg) by congruence. subst mg'.
      destruct (try_for_samples_posts env (VStr (mg ++ "/rpc")) bucketname tok
                  (sampler_polls env 120 5 (world st1)) st1) as (n & Hn & Hle & _).
      exists tok, n. rewrite Hn, Hcalls, <- app_assoc, <- Hworld.
      split; [reflexivity | exact Hle].
    + exists VNone, 0. rewrite Hcalls. split; [reflexivity | lia].
  - intros Hnot. unfold check_data_reduction, create_auth, bind, get_self, lift.
    destruct (mgmt_endpoint (self st)) as [| mg | | |]; try reflexivity.
    now contradiction (Hnot mg).
Qed.

Lemma check_data_reduction_posts_witness :
  exists tok n,
    calls (snd (check_data_reduction script_env "mybucket-1" low_sample_state))
    = calls low_sample_state
      ++ auth_post (VStr ("https://mgmt.us-east-2.example.com" ++ "/rpc"))
                   (self low_sample_state)
         :: repeat (read_post (VStr ("https://mgmt.us-east-2.example.com" ++ "/rpc"))
                              "mybucket-1" tok) n
    /\ n <= 2 * sampler_polls script_env 120 5
                 (snd (requests_post script_env
                         (VStr ("https://mgmt.us-east-2.example.com" ++ "/rpc"))
                         (auth_payload (self low_sample_state))
                         (world low_sample_state))).
Proof.
  refine (proj1 (check_data_reduction_posts script_env "mybucket-1" low_sample_state)
                "https://mgmt.us-east-2.example.com" _).
  vm_compute. reflexivity.
Defined.



(** X17: an answer to [create_auth] whose reply holds no token is not an
    error for [check_data_reduction]: when the sampler grants a sample, the
    [read_bucket] requests are posted, with [None] as their token. *)
Theorem check_data_reduction_missing_token {W} (env : Env W) (bucketname : string)
        (st : state W) (mg : string) (resp : value) (w1 : W)
        (d : list (string * value)) :
  mgmt_endpoint (self st) = VStr mg ->
  requests_post env (VStr (mg ++ "/rpc")) (auth_payload (self st)) (world st)
  = (Ok resp, w1) ->
  py_get "reply" resp = Ok (VDict d) ->
  assoc "token" d = None ->
  0 < sampler_polls env 120 5 w1 ->
  exists n,
    1 <= n
    /\ calls (snd (check_data_reduction env bucketname st))
       = calls st ++ auth_post (VStr (mg ++ "/rpc")) (self st)
                  :: repeat (read_post (VStr (mg ++ "/rpc")) bucketname VNone) n.
Proof.
  intros Hmg Hpost Hreply Htok Hpolls.
  assert (Hauth : create_auth env st
                  = (Ok (VStr (mg ++ "/rpc"), VNone),
                     {| self := self st; world := w1;
                        calls := calls st ++ [auth_post (VStr (mg ++ "/rpc")) (self st)] |})).
  { unfold create_auth, bind, get_self, lift, extern, ret, auth_post.
    rewrite Hmg. cbn [py_add_str]. rewrite Hpost. cbn [self world calls].
    rewrite Hreply. cbn [bindR py_get]. rewrite Htok. reflexivity. }
  rewrite check_data_reduction_unfold, Hauth. cbn [fst snd world].
  destruct (try_for_samples_posts env (VStr (mg ++ "/rpc")) bucketname VNone
              (sampler_polls env 120 5 w1)
              {| self := self st; world := w1;
                 calls := calls st ++ [auth_post (VStr (mg ++ "/rpc")) (self st)] |})
    as (n & Hn & _ & Hpos).
  exists n. split; [now apply Hpos |].
  rewrite Hn. cbn [calls]. now rewrite <- app_assoc.
Qed.

Lemma check_data_reduction_missing_token_witness :
  exists n,
    1 <= n
    /\ calls (snd (check_data_reduction script_env "mybucket-1" no_token_state))
       = calls no_token_state
         ++ auth_post (VStr ("https://mgmt.us-east-2.example.com" ++ "/rpc"))
                      (self no_token_state)
            :: repeat (read_post (VStr ("https://mgmt.us-east-2.example.com" ++ "/rpc"))
                                 "mybucket-1" VNone) n.
Proof.
  refine (check_data_reduction_missing_token script_env "mybucket-1" no_token_state
            "https://mgmt.us-east-2.example.com"
            (VDict [("reply", VDict [])]) (with_rpc [] 1 quiet_script) [] _ _ _ _ _).
  - vm_compute. reflexivity.
  - vm_compute. reflexivity.
  - reflexivity.
  - reflexivity.
  - vm_compute. lia.
Defined.

(** X18: a sample in which the size or the reduced size is [None], as when
    the answer lacks the key, makes [check_data_reduction] raise
    [TypeError] at that sample: the handler of the timeout does not catch
    it and [False] is not returned. *)
Theorem check_data_reduction_none_sample {W} (env : Env W) (bucketname : string)
        (st st1 st2 : state W) (url tok v1 v2 : value) :
  create_auth env st = (Ok (url, tok), st1) ->
  0 < sampler_polls env 120 5 (world st1) ->
  _check_reduction env url bucketname tok st1 = (Ok (v1, v2), st2) ->
  v1 = VNone \/ v2 = VNone ->
  check_data_reduction env bucketname st = (Raise TypeError, st2).
Proof.
  intros Hauth Hpolls Hcheck Hnone.
  rewrite check_data_reduction_unfold, Hauth. cbn [fst snd].
  destruct (sampler_polls env 120 5 (world st1)) as [| polls]; [lia |].
  unfold try_for_samples. cbn [for_samples]. rewrite Hcheck.
  assert (Hsub : py_sub v1 v2 = Raise TypeError).
  { destruct Hnone as [-> | ->]; [reflexivity | destruct v1; reflexivity]. }
  rewrite Hsub. reflexivity.
Qed.

Lemma check_data_reduction_none_sample_witness :
  fst (check_data_reduction script_env "mybucket-1"
         (started (with_rpc [Ok auth_reply;
                             Ok (VDict [("reply", VDict [("data", VDict [])])]);
                             Ok (read_bucket_reply 200 20)] 1 quiet_script)))
  = Raise TypeError.
Proof.
  refine (f_equal fst
            (check_data_reduction_none_sample script_env "mybucket-1"
               (started (with_rpc [Ok auth_reply;
                                   Ok (VDict [("reply", VDict [("data", VDict [])])]);
                                   Ok (read_bucket_reply 200 20)] 1 quiet_script))
               (snd (create_auth script_env
                       (started (with_rpc
                                   [Ok auth_reply;
                                    Ok (VDict [("reply", VDict [("data", VDict [])])]);
                                    Ok (read_bucket_reply 200 20)] 1 quiet_script))))
               _ (VStr "https://mgmt.us-east-2.example.com/rpc") (VStr "tok")
               VNone (VInt 20) _ _ _ _)).
  - vm_compute. reflexivity.
  - vm_compute. lia.
  - vm_compute. reflexivity.
  - left. reflexivity.
Defined.

Lemma one_call_per_operation_witness :
  calls (snd (s3_verify_bucket_exists script_env "mybucket-1" (started quiet_script)))
  = [] ++ [CallHeadBucket {| endpoint_url := VStr "https://s3.us-east-2.example.com";
                             aws_access_key_id := VStr "AKIA123";
                             aws_secret_access_key := VStr "s3cr3t" |}
                          "mybucket-1"].
Proof.
  refine (proj2 (proj2 (proj2 (proj2 (proj2
            (one_call_per_operation script_env "mybucket-1" (started quiet_script)))))
                  {| endpoint_url := VStr "https://s3.us-east-2.example.com";
                     aws_access_key_id := VStr "AKIA123";
                     aws_secret_access_key := VStr "s3cr3t" |} _)).
  vm_compute. reflexivity.
Defined.

Lemma oc_verify_false_iff_witness :
  fst (oc_verify_bucket_exists script_env "ghost"
         (started (with_obc (Raise ghost_not_found) quiet_script)))
  = Ok false.
Proof.
  apply (proj2 (oc_verify_false_iff script_env "ghost"
                  (started (with_obc (Raise ghost_not_found) quiet_script)))).
  exists "CommandFailed('Error from server (",
         "): objectbucketclaims.objectbucket.io ghost not found')".
  vm_compute. reflexivity.
Defined.

Lemma s3_verify_never_client_error_witness :
  fst (s3_verify_bucket_exists script_env "mybucket-1"
         (started (with_head (Raise (ClientError "403")) quiet_script)))
  <> Raise (ClientError "403").
Proof.
  exact (s3_verify_never_client_error script_env "mybucket-1"
           (started (with_head (Raise (ClientError "403")) quiet_script)) "403").
Defined.

Lemma new_MCG_calls_witness :
  exists new,
    snd (snd (new_MCG script_env quiet_script [])) = [] ++ new
    /\ (new = []
        \/ (exists ns, new = [fetch_noobaa ns])
        \/ (exists ns name, new = [fetch_noobaa ns; fetch_secret ns name])).
Proof.
  exact (new_MCG_calls script_env quiet_script []).
Defined.
